(** * Parts stock balance alert: snapshot comparison and state store

    A shallow embedding of [src/monitor_parts.py]: the change detector
    [detect_changes], the extraction of headers and values it shares with
    [send_space_alert], and the pickled state file behind
    [load_previous_state] and [save_current_state].

    Data model.  The sheet range is a Python list of rows, each row a list
    of cells, each cell a [str] (the Sheets API renders every cell as
    text, and the state file holds what an earlier run fetched).  A cell is
    a [string]; its characters are code points below 256.  Python integers
    used as lengths and indices are never negative here and are [nat].
    A second model of [detect_changes] lets the previous state hold
    entries that are not rows, which is where its [except] block runs on
    fetched data. *)

From Stdlib Require Import String Ascii List Arith Bool Lia.
Import ListNotations.
Open Scope string_scope.
Open Scope list_scope.
Open Scope nat_scope.

Set Implicit Arguments.

(** ** Exceptions *)

Inductive exn : Type :=
| IndexError
| TypeError
| APIError.

Inductive result (A : Type) : Type :=
| Ok (a : A)
| Raise (e : exn).

Arguments Ok {A} a.
Arguments Raise {A} e.

Definition bind {A B : Type} (m : result A) (k : A -> result B) : result B :=
  match m with
  | Ok a => k a
  | Raise e => Raise e
  end.

Notation "x <- m ;; k" := (bind m (fun x => k))
  (at level 61, m at next level, right associativity).

(** ** Python primitives *)

Module Py.

(** [str.isspace] on one character, for the code points below 256:
    U+0009..U+000D, U+001C..U+0020, U+0085 and U+00A0. *)
Definition isspace (c : ascii) : bool :=
  let n := nat_of_ascii c in
  ((9 <=? n) && (n <=? 13)) || ((28 <=? n) && (n <=? 32))
  || (n =? 133) || (n =? 160).

Fixpoint lstrip (s : string) : string :=
  match s with
  | EmptyString => EmptyString
  | String c s' => if isspace c then lstrip s' else s
  end.

Fixpoint rstrip (s : string) : string :=
  match s with
  | EmptyString => EmptyString
  | String c s' =>
      match rstrip s' with
      | EmptyString => if isspace c then EmptyString else String c EmptyString
      | r => String c r
      end
  end.

(** [s.strip()]: leading and trailing whitespace removed. *)
Definition strip (s : string) : string := rstrip (lstrip s).

(** [l[i]] for [0 <= i]. *)
Definition getitem {A : Type} (l : list A) (i : nat) : result A :=
  match nth_error l i with
  | Some x => Ok x
  | None => Raise IndexError
  end.

(** [not l] for a list. *)
Definition falsy {A : Type} (l : list A) : bool :=
  match l with
  | [] => true
  | _ :: _ => false
  end.

End Py.

(** ** Snapshots and changes *)

Definition row : Type := list string.
Definition snapshot : Type := list row.

(** A change is the tuple [(part, old_val, new_val)]. *)
Definition Change : Type := (string * string * string)%type.

(** The pattern the source repeats for headers and values (lines 184-196 of
    [detect_changes], lines 86-93 of [send_space_alert]):
    [x = []; if len(data) > r and len(data[r]) > 2: x = data[r][2:]]. *)
Definition cells_from (data : snapshot) (r : nat) : result (list string) :=
  if r <? length data then
    data_r <- Py.getitem data r ;;
    if 2 <? length data_r then
      data_r' <- Py.getitem data r ;;
      Ok (skipn 2 data_r')
    else Ok []
  else Ok [].

(** [len(data[r]) if len(data) > r else 0], the debug lines 199-201. *)
Definition row_length (data : snapshot) (r : nat) : result nat :=
  if r <? length data then
    data_r <- Py.getitem data r ;;
    Ok (length data_r)
  else Ok 0.

(** Lines 207-214: headers and current values cut to the shorter of the
    two; previous values cut only when longer than that. *)
Definition validate (part_headers prev_values curr_values : list string)
  : list string * list string * list string :=
  if negb (length part_headers =? length curr_values) then
    let compare_length := Nat.min (length part_headers) (length curr_values) in
    (firstn compare_length part_headers,
     (if compare_length <? length prev_values
      then firstn compare_length prev_values
      else prev_values),
     firstn compare_length curr_values)
  else (part_headers, prev_values, curr_values).

(** Lines 217-224: previous values padded or trimmed to the current ones. *)
Definition reconcile (prev_values curr_values : list string) : list string :=
  if length prev_values <? length curr_values then
    prev_values ++ repeat "" (length curr_values - length prev_values)
  else if length curr_values <? length prev_values then
    firstn (length curr_values) prev_values
  else prev_values.

(** Lines 183-224: the three lists as they stand when the comparison
    starts. *)
Definition aligned (previous_data current_data : snapshot)
  : result (list string * list string * list string) :=
  part_headers <- cells_from current_data 1 ;;
  prev_values <- cells_from previous_data 0 ;;
  curr_values <- cells_from current_data 0 ;;
  _ <- row_length previous_data 0 ;;
  _ <- row_length current_data 0 ;;
  _ <- row_length current_data 1 ;;
  let '(part_headers, prev_values, curr_values) :=
    validate part_headers prev_values curr_values in
  let prev_values := reconcile prev_values curr_values in
  Ok (part_headers, prev_values, curr_values).

(** Lines 229-240: the loop [for i in range(len(part_headers))], given the
    indices still to visit and the changes appended so far.  [str(v)] of a
    cell is the cell itself. *)
Fixpoint compare_values (range : list nat)
    (part_headers prev_values curr_values : list string)
    (changes : list Change) : result (list Change) :=
  match range with
  | [] => Ok changes
  | i :: range' =>
      if (length prev_values <=? i) || (length curr_values <=? i) then
        compare_values range' part_headers prev_values curr_values changes
      else
        prev_i <- Py.getitem prev_values i ;;
        curr_i <- Py.getitem curr_values i ;;
        if negb (String.eqb (Py.strip prev_i) (Py.strip curr_i)) then
          header_i <- Py.getitem part_headers i ;;
          compare_values range' part_headers prev_values curr_values
            (changes ++ [(header_i, prev_i, curr_i)])
        else
          compare_values range' part_headers prev_values curr_values changes
  end.

(** Lines 182-240: [changes] as it stands after the loop. *)
Definition label_changes (previous_data current_data : snapshot)
  : result (list Change) :=
  t <- aligned previous_data current_data ;;
  let '(part_headers, prev_values, curr_values) := t in
  compare_values (seq 0 (length part_headers))
    part_headers prev_values curr_values [].

(** Lines 243-249: what the total check appends.  [and] evaluates
    [current_data[0]] only when the previous row has a second cell. *)
Definition total_change (previous_data current_data : snapshot)
  : result (list Change) :=
  prev_0 <- Py.getitem previous_data 0 ;;
  if 1 <? length prev_0 then
    curr_0 <- Py.getitem current_data 0 ;;
    if 1 <? length curr_0 then
      prev_0_1 <- Py.getitem prev_0 1 ;;
      curr_0_1 <- Py.getitem curr_0 1 ;;
      if negb (String.eqb (Py.strip prev_0_1) (Py.strip curr_0_1)) then
        Ok [("TOTAL WEIGHTS", prev_0_1, curr_0_1)]
      else Ok []
    else Ok []
  else Ok [].

(** The body of the [try] of [detect_changes], lines 182-255. *)
Definition detect_changes_try (previous_data current_data : snapshot)
  : result (list Change) :=
  changes <- label_changes previous_data current_data ;;
  total <- total_change previous_data current_data ;;
  Ok (changes ++ total).

(** ** The state file *)

(** What [PREVIOUS_STATE_FILE] holds: a pickle of a snapshot, or bytes
    that [pickle.load] rejects. *)
Inductive file : Type :=
| Pickled (data : snapshot)
| Corrupt.

(** How the file system answers a write: it succeeds, [os.makedirs] or
    [open] fails and the file is untouched, or [pickle.dump] fails after
    [open(..., 'wb')] has truncated the file. *)
Inductive write_outcome : Type :=
| WriteOk
| OpenFails
| DumpFails.

Record disk : Type := mkDisk {
  previous_state_file : option file;
  writes : write_outcome
}.

(** [load_previous_state], lines 140-157. *)
Definition load_previous_state (d : disk) : option snapshot :=
  match previous_state_file d with
  | Some (Pickled data) =>
      if Py.falsy data || (length data <? 3) then None else Some data
  | Some Corrupt => None
  | None => None
  end.

(** [save_current_state], lines 159-173. *)
Definition save_current_state (state : snapshot) (d : disk)
  : result unit * disk :=
  if Py.falsy state || (length state <? 3) then (Ok tt, d)
  else
    match writes d with
    | WriteOk => (Ok tt, mkDisk (Some (Pickled state)) (writes d))
    | OpenFails => (Raise APIError, d)
    | DumpFails => (Raise APIError, mkDisk (Some Corrupt) (writes d))
    end.

(** The [except Exception] block of [detect_changes], lines 256-263. *)
Definition detect_changes_except (current_data : snapshot) (d : disk)
  : result (list Change) * disk :=
  match save_current_state current_data d with
  | (Ok _, d') => (Ok [], d')
  | (Raise e, d') => (Raise e, d')
  end.

(** [detect_changes], lines 175-263.  [previous_data] is [None] when
    [load_previous_state] found nothing. *)
Definition detect_changes (previous_data : option snapshot)
    (current_data : snapshot) (d : disk) : result (list Change) * disk :=
  match previous_data with
  | None => (Ok [], d)
  | Some previous_data =>
      if Py.falsy previous_data then (Ok [], d)
      else
        match detect_changes_try previous_data current_data with
        | Ok changes => (Ok changes, d)
        | Raise _ => detect_changes_except current_data d
        end
  end.

(** ** A previous state that is not a list of rows *)

(** [load_previous_state] checks only that the pickle has 3 entries, so
    what reaches [detect_changes] as [previous_data] may hold an entry that
    is not a row.  An entry is a list of text cells, or an object without
    a length ([None], a number). *)
Inductive stored_row : Type :=
| Cells (cells : row)
| NotSized.

Definition stored : Type := list stored_row.

(** [len(v)] of an entry. *)
Definition len (v : stored_row) : result nat :=
  match v with
  | Cells cells => Ok (length cells)
  | NotSized => Raise TypeError
  end.

(** [v[2:]] of an entry. *)
Definition from_col2 (v : stored_row) : result (list string) :=
  match v with
  | Cells cells => Ok (skipn 2 cells)
  | NotSized => Raise TypeError
  end.

(** [v[i]] of an entry. *)
Definition item (v : stored_row) (i : nat) : result string :=
  match v with
  | Cells cells => Py.getitem cells i
  | NotSized => Raise TypeError
  end.

(** Lines 189-191 on such a previous state. *)
Definition stored_cells_from (data : stored) (r : nat) : result (list string) :=
  if r <? length data then
    data_r <- Py.getitem data r ;;
    n <- len data_r ;;
    if 2 <? n then
      data_r' <- Py.getitem data r ;;
      from_col2 data_r'
    else Ok []
  else Ok [].

(** Line 199 on such a previous state. *)
Definition stored_row_length (data : stored) (r : nat) : result nat :=
  if r <? length data then
    data_r <- Py.getitem data r ;;
    len data_r
  else Ok 0.

(** Lines 183-224, as [aligned]. *)
Definition aligned_stored (previous_data : stored) (current_data : snapshot)
  : result (list string * list string * list string) :=
  part_headers <- cells_from current_data 1 ;;
  prev_values <- stored_cells_from previous_data 0 ;;
  curr_values <- cells_from current_data 0 ;;
  _ <- stored_row_length previous_data 0 ;;
  _ <- row_length current_data 0 ;;
  _ <- row_length current_data 1 ;;
  let '(part_headers, prev_values, curr_values) :=
    validate part_headers prev_values curr_values in
  let prev_values := reconcile prev_values curr_values in
  Ok (part_headers, prev_values, curr_values).

(** Lines 182-240, as [label_changes]. *)
Definition label_changes_stored (previous_data : stored) (current_data : snapshot)
  : result (list Change) :=
  t <- aligned_stored previous_data current_data ;;
  let '(part_headers, prev_values, curr_values) := t in
  compare_values (seq 0 (length part_headers))
    part_headers prev_values curr_values [].

(** Lines 243-249, as [total_change]. *)
Definition total_change_stored (previous_data : stored) (current_data : snapshot)
  : result (list Change) :=
  prev_0 <- Py.getitem previous_data 0 ;;
  n <- len prev_0 ;;
  if 1 <? n then
    curr_0 <- Py.getitem current_data 0 ;;
    if 1 <? length curr_0 then
      prev_0_1 <- item prev_0 1 ;;
      curr_0_1 <- Py.getitem curr_0 1 ;;
      if negb (String.eqb (Py.strip prev_0_1) (Py.strip curr_0_1)) then
        Ok [("TOTAL WEIGHTS", prev_0_1, curr_0_1)]
      else Ok []
    else Ok []
  else Ok [].

(** The body of the [try], lines 182-255, as [detect_changes_try]. *)
Definition detect_changes_try_stored (previous_data : stored)
    (current_data : snapshot) : result (list Change) :=
  changes <- label_changes_stored previous_data current_data ;;
  total <- total_change_stored previous_data current_data ;;
  Ok (changes ++ total).

(** [detect_changes], lines 175-263, on such a previous state; the
    [except] block is the same [detect_changes_except]. *)
Definition detect_changes_stored (previous_data : option stored)
    (current_data : snapshot) (d : disk) : result (list Change) * disk :=
  match previous_data with
  | None => (Ok [], d)
  | Some previous_data =>
      if Py.falsy previous_data then (Ok [], d)
      else
        match detect_changes_try_stored previous_data current_data with
        | Ok changes => (Ok changes, d)
        | Raise _ => detect_changes_except current_data d
        end
  end.

(** ** Fetching the sheet *)

Module Sheets.

(** What [sheet.values().get(...).execute()] does: it raises [HttpError],
    raises something else, or returns the response, in which the key
    ['values'] may be missing. *)
Inductive execute : Type :=
| RaisesHttpError
| RaisesOther
| Returns (values : option snapshot).

(** What can be raised inside [get_sheet_data]; an [APIError] carries its
    message. *)
Inductive raised : Type :=
| HttpError
| Other
| API (message : string).

(** The body of the [try] of [get_sheet_data], lines 44-56. *)
Definition get_sheet_data_try (e : execute) : raised + snapshot :=
  match e with
  | RaisesHttpError => inl HttpError
  | RaisesOther => inl Other
  | Returns values =>
      let data := match values with Some v => v | None => [] end in
      if Py.falsy data || (length data <? 3) then
        inl (API "Invalid data structure received from Google Sheets")
      else inr data
  end.

(** [get_sheet_data], lines 40-62: the data, or the message of the
    [APIError] it raises.  The [APIError] of line 53 is itself caught by
    [except Exception] at line 60. *)
Definition get_sheet_data (e : execute) : string + snapshot :=
  match get_sheet_data_try e with
  | inr data => inr data
  | inl HttpError => inl "Failed to fetch data from Google Sheets"
  | inl _ => inl "Unexpected error while fetching sheet data"
  end.

End Sheets.

(** ** The weight test of the alert *)

Module Alert.

(** [str.isdigit] on one character, for the code points below 256: the
    digits 0-9 and the superscripts U+00B2, U+00B3 and U+00B9. *)
Definition isdigit_char (c : ascii) : bool :=
  let n := nat_of_ascii c in
  ((48 <=? n) && (n <=? 57)) || (n =? 178) || (n =? 179) || (n =? 185).

Fixpoint all_digits (s : string) : bool :=
  match s with
  | EmptyString => true
  | String c s' => isdigit_char c && all_digits s'
  end.

(** [s.isdigit()]: at least one character, and every character a digit. *)
Definition isdigit (s : string) : bool :=
  match s with
  | EmptyString => false
  | String _ _ => all_digits s
  end.

(** [s.replace('.', '', 1)]. *)
Fixpoint replace_first_dot (s : string) : string :=
  match s with
  | EmptyString => EmptyString
  | String c s' =>
      if Ascii.eqb c "."%char then s' else String c (replace_first_dot s')
  end.

(** The test of lines 73, 74, 104 and 116 that sends a value to the
    [float] formatting with the kg suffix:
    [str(val).strip().replace('.', '', 1).isdigit()]. *)
Definition is_weight (val : string) : bool :=
  isdigit (replace_first_dot (Py.strip val)).

End Alert.

(** ** One run *)

(** What [main] reads from outside: the environment variable, whether
    [get_service] succeeds, and what the Sheets request does. *)
Record environment : Type := mkEnv {
  SPACE_WEBHOOK_URL : option string;
  service_account : bool;
  sheet : Sheets.execute
}.

(** [send_space_alert] as [main] sees it: called with the webhook URL, the
    changes and the current data, it returns [True] or [False] or raises. *)
Definition sender : Type := string -> list Change -> snapshot -> result bool.

(** One call of [send_space_alert]. *)
Definition attempt : Type := (list Change * snapshot)%type.

(** Exceptions inside [main]: its own [ValueError], or one raised by a
    function it calls. *)
Inductive main_exn : Type :=
| ValueError
| Called (e : exn).

Inductive main_result : Type :=
| Returned
| Raised (e : main_exn).

(** The inner [try] of [main], lines 292-302. *)
Definition check_for_changes_try (send_space_alert : sender) (webhook_url : string)
    (previous_data current_data : snapshot) (d : disk)
  : result unit * disk * list attempt :=
  match detect_changes (Some previous_data) current_data d with
  | (Raise e, d1) => (Raise e, d1, [])
  | (Ok changes, d1) =>
      if negb (Py.falsy changes) then
        match send_space_alert webhook_url changes current_data with
        | Ok true =>
            let (r, d2) := save_current_state current_data d1 in
            (r, d2, [(changes, current_data)])
        | Ok false =>
            let (r, d2) := save_current_state current_data d1 in
            (r, d2, [(changes, current_data)])
        | Raise e => (Raise e, d1, [(changes, current_data)])
        end
      else
        let (r, d2) := save_current_state current_data d1 in
        (r, d2, [])
  end.

(** The inner [try] with its [except Exception], lines 291-306. *)
Definition check_for_changes (send_space_alert : sender) (webhook_url : string)
    (previous_data current_data : snapshot) (d : disk)
  : result unit * disk * list attempt :=
  match check_for_changes_try send_space_alert webhook_url
          previous_data current_data d with
  | (Ok u, d', sent) => (Ok u, d', sent)
  | (Raise _, d', sent) =>
      let (r, d'') := save_current_state current_data d' in
      (r, d'', sent)
  end.

(** The inner [try] of [main], lines 292-302, when the previous state may
    hold entries that are not rows. *)
Definition check_for_changes_try_stored (send_space_alert : sender)
    (webhook_url : string) (previous_data : stored) (current_data : snapshot)
    (d : disk) : result unit * disk * list attempt :=
  match detect_changes_stored (Some previous_data) current_data d with
  | (Raise e, d1) => (Raise e, d1, [])
  | (Ok changes, d1) =>
      if negb (Py.falsy changes) then
        match send_space_alert webhook_url changes current_data with
        | Ok true =>
            let (r, d2) := save_current_state current_data d1 in
            (r, d2, [(changes, current_data)])
        | Ok false =>
            let (r, d2) := save_current_state current_data d1 in
            (r, d2, [(changes, current_data)])
        | Raise e => (Raise e, d1, [(changes, current_data)])
        end
      else
        let (r, d2) := save_current_state current_data d1 in
        (r, d2, [])
  end.

(** The inner [try] with its [except Exception], lines 291-306. *)
Definition check_for_changes_stored (send_space_alert : sender)
    (webhook_url : string) (previous_data : stored) (current_data : snapshot)
    (d : disk) : result unit * disk * list attempt :=
  match check_for_changes_try_stored send_space_alert webhook_url
          previous_data current_data d with
  | (Ok u, d', sent) => (Ok u, d', sent)
  | (Raise _, d', sent) =>
      let (r, d'') := save_current_state current_data d' in
      (r, d'', sent)
  end.

(** The outer [try] of [main], lines 267-306. *)
Definition main_try (send_space_alert : sender) (env : environment) (d : disk)
  : main_result * disk * list attempt :=
  match SPACE_WEBHOOK_URL env with
  | None => (Raised ValueError, d, [])
  | Some EmptyString => (Raised ValueError, d, [])
  | Some webhook_url =>
      if negb (service_account env) then (Raised (Called APIError), d, [])
      else
        match Sheets.get_sheet_data (sheet env) with
        | inl _ => (Raised (Called APIError), d, [])
        | inr current_data =>
            match load_previous_state d with
            | None =>
                match save_current_state current_data d with
                | (Ok _, d') => (Returned, d', [])
                | (Raise e, d') => (Raised (Called e), d', [])
                end
            | Some previous_data =>
                if Py.falsy previous_data then
                  match save_current_state current_data d with
                  | (Ok _, d') => (Returned, d', [])
                  | (Raise e, d') => (Raised (Called e), d', [])
                  end
                else
                  match check_for_changes send_space_alert webhook_url
                          previous_data current_data d with
                  | (Ok _, d', sent) => (Returned, d', sent)
                  | (Raise e, d', sent) => (Raised (Called e), d', sent)
                  end
            end
        end
  end.

(** How a run ends: normally, or in one of the two handlers of lines
    308-314, which only print. *)
Inductive ending : Type :=
| Finished
| APIErrorLogged
| UnexpectedErrorLogged.

(** [main], lines 265-314: how the run ended, the disk it leaves and the
    calls of [send_space_alert] it made. *)
Definition main (send_space_alert : sender) (env : environment) (d : disk)
  : ending * disk * list attempt :=
  match main_try send_space_alert env d with
  | (Returned, d', sent) => (Finished, d', sent)
  | (Raised (Called APIError), d', sent) => (APIErrorLogged, d', sent)
  | (Raised _, d', sent) => (UnexpectedErrorLogged, d', sent)
  end.

(** The run gets as far as the comparison: the webhook URL is set, the
    service is built and the sheet returns [current_data]. *)
Definition fetches (env : environment) (webhook_url : string)
    (current_data : snapshot) : Prop :=
  SPACE_WEBHOOK_URL env = Some webhook_url
  /\ webhook_url <> ""
  /\ service_account env = true
  /\ Sheets.get_sheet_data (sheet env) = inr current_data.

(** ** The comparison as the specification words it *)

(** Labels and the two value lists taken position by position, up to the
    shortest of the three. *)
Fixpoint zip3 (labels prevs currs : list string) : list Change :=
  match labels, prevs, currs with
  | l :: labels', p :: prevs', c :: currs' => (l, p, c) :: zip3 labels' prevs' currs'
  | _, _, _ => []
  end.

(** A triple is a change when its two values differ once stripped. *)
Definition changed (t : Change) : bool :=
  let '(_, prev_val, curr_val) := t in
  negb (String.eqb (Py.strip prev_val) (Py.strip curr_val)).

(** The cell at [data[r][c]], or the empty string when there is none. *)
Definition cell (data : snapshot) (r c : nat) : string :=
  nth c (nth r data []) "".

(** A list cut to [n] entries, or filled up to [n] with empty strings. *)
Definition resize (n : nat) (values : list string) : list string :=
  firstn n values ++ repeat "" (n - length values).

(** ** Auxiliary facts *)

Section ListFacts.

Variable A : Type.

Lemma getitem_nth (l : list A) (i : nat) (dflt : A) :
  i < length l -> Py.getitem l i = Ok (nth i l dflt).
Proof.
  intros Hi. unfold Py.getitem.
  rewrite (nth_error_nth' l dflt Hi). reflexivity.
Qed.

Lemma skipn_step (l : list A) (k : nat) (dflt : A) :
  k < length l -> skipn k l = nth k l dflt :: skipn (S k) l.
Proof.
  revert k. induction l as [|x l IH]; intros k Hk; simpl in Hk.
  - lia.
  - destruct k as [|k]; [reflexivity|].
    change (skipn k l = nth k l dflt :: skipn (S k) l).
    apply IH. lia.
Qed.

Lemma In_firstn (l : list A) (n : nat) (x : A) :
  In x (firstn n l) -> In x l.
Proof.
  intros Hin. rewrite <- (firstn_skipn n l). apply in_or_app. now left.
Qed.

Lemma falsy_length (l : list A) : Py.falsy l = false <-> 0 < length l.
Proof. destruct l; simpl; split; intros; try congruence; lia. Qed.

End ListFacts.

Lemma zip3_nil_prevs (labels currs : list string) : zip3 labels [] currs = [].
Proof. destruct labels; reflexivity. Qed.

Lemma zip3_nil_currs (labels prevs : list string) : zip3 labels prevs [] = [].
Proof. destruct labels; [|destruct prevs]; reflexivity. Qed.

Lemma zip3_In (labels prevs currs : list string) (l p c : string) :
  In (l, p, c) (zip3 labels prevs currs) -> In l labels.
Proof.
  revert prevs currs.
  induction labels as [|l0 labels IH]; intros [|p0 prevs] [|c0 currs]; simpl;
    try tauto.
  intros [Heq | Hin].
  - left. congruence.
  - right. eapply IH; eassumption.
Qed.

Lemma cells_from_total (data : snapshot) (r : nat) :
  cells_from data r = Ok (skipn 2 (nth r data [])).
Proof.
  unfold cells_from.
  destruct (Nat.ltb_spec r (length data)) as [Hr | Hr].
  - rewrite (getitem_nth data [] Hr). cbn [bind].
    destruct (Nat.ltb_spec 2 (length (nth r data []))) as [Hc | Hc].
    + reflexivity.
    + rewrite skipn_all2 by lia. reflexivity.
  - rewrite (nth_overflow data [] Hr). reflexivity.
Qed.

Lemma row_length_total (data : snapshot) (r : nat) :
  row_length data r = Ok (length (nth r data [])).
Proof.
  unfold row_length.
  destruct (Nat.ltb_spec r (length data)) as [Hr | Hr].
  - rewrite (getitem_nth data [] Hr). reflexivity.
  - rewrite (nth_overflow data [] Hr). reflexivity.
Qed.

(** The loop, started at index [k] with [changes] collected so far, adds
    the changed triples of the remaining positions in order. *)
Lemma compare_values_from (part_headers prev_values curr_values : list string) :
  forall (n k : nat) (changes : list Change),
    k + n = length part_headers ->
    compare_values (seq k n) part_headers prev_values curr_values changes
    = Ok (changes ++ filter changed
            (zip3 (skipn k part_headers) (skipn k prev_values)
                  (skipn k curr_values))).
Proof.
  induction n as [|n IH]; intros k changes Hk.
  - simpl. rewrite (skipn_all2 part_headers) by lia.
    simpl. rewrite app_nil_r. reflexivity.
  - cbn [seq compare_values].
    rewrite (skipn_step part_headers "") by lia.
    destruct (Nat.leb_spec (length prev_values) k) as [Hp | Hp].
    { cbn [orb]. rewrite IH by lia.
      rewrite (skipn_all2 prev_values) by lia.
      rewrite (skipn_all2 prev_values) by lia.
      now rewrite !zip3_nil_prevs. }
    destruct (Nat.leb_spec (length curr_values) k) as [Hc | Hc].
    { cbn [orb]. rewrite IH by lia.
      rewrite (skipn_all2 curr_values) by lia.
      rewrite (skipn_all2 curr_values) by lia.
      now rewrite !zip3_nil_currs. }
    cbn [orb].
    rewrite (getitem_nth prev_values "" Hp), (getitem_nth curr_values "" Hc).
    rewrite (skipn_step prev_values "" Hp), (skipn_step curr_values "" Hc).
    cbn [bind zip3 filter changed].
    destruct (negb (String.eqb (Py.strip (nth k prev_values ""))
                               (Py.strip (nth k curr_values "")))).
    + rewrite (getitem_nth part_headers "") by lia. cbn [bind].
      rewrite IH by lia. rewrite <- app_assoc. reflexivity.
    + apply IH. lia.
Qed.

Lemma compare_values_filter (part_headers prev_values curr_values : list string) :
  compare_values (seq 0 (length part_headers))
    part_headers prev_values curr_values []
  = Ok (filter changed (zip3 part_headers prev_values curr_values)).
Proof. now rewrite compare_values_from. Qed.

(** ** What the alignment computes *)

Lemma resize_length (n : nat) (values : list string) :
  length (resize n values) = n.
Proof.
  unfold resize. rewrite length_app, length_firstn, repeat_length. lia.
Qed.

Lemma reconcile_resize (prev_values curr_values : list string) :
  reconcile prev_values curr_values = resize (length curr_values) prev_values.
Proof.
  unfold reconcile, resize.
  destruct (Nat.ltb_spec (length prev_values) (length curr_values)) as [H1 | H1].
  - rewrite firstn_all2 by lia. reflexivity.
  - destruct (Nat.ltb_spec (length curr_values) (length prev_values)) as [H2 | H2].
    + replace (length curr_values - length prev_values) with 0 by lia.
      simpl. now rewrite app_nil_r.
    + replace (length curr_values - length prev_values) with 0 by lia.
      rewrite firstn_all2 by lia. simpl. now rewrite app_nil_r.
Qed.

Lemma resize_firstn (n m : nat) (values : list string) :
  n <= m -> resize n (firstn m values) = resize n values.
Proof.
  intros Hnm. unfold resize.
  rewrite firstn_firstn, Nat.min_l by assumption.
  rewrite length_firstn.
  destruct (Nat.le_ge_cases m (length values)) as [H | H].
  - rewrite Nat.min_l by assumption.
    replace (n - m) with 0 by lia. replace (n - length values) with 0 by lia.
    reflexivity.
  - rewrite Nat.min_r by assumption. reflexivity.
Qed.

(** The three lists of [validate] followed by [reconcile], in closed form. *)
Lemma validate_reconcile (part_headers prev_values curr_values : list string) :
  let n := Nat.min (length part_headers) (length curr_values) in
  (let '(h, p, c) := validate part_headers prev_values curr_values in
   (h, reconcile p c, c))
  = (firstn n part_headers, resize n prev_values, firstn n curr_values).
Proof.
  intros n. unfold validate.
  destruct (Nat.eqb_spec (length part_headers) (length curr_values)) as [He | He];
    cbn [negb].
  - rewrite reconcile_resize.
    assert (Hn : n = length curr_values) by (unfold n; lia).
    rewrite Hn, firstn_all, (firstn_all2 part_headers) by lia. reflexivity.
  - fold n. rewrite reconcile_resize, length_firstn.
    assert (Hn : Nat.min n (length curr_values) = n) by (unfold n; lia).
    rewrite Hn.
    destruct (Nat.ltb_spec n (length prev_values)) as [Hp | Hp].
    + rewrite resize_firstn by lia. reflexivity.
    + reflexivity.
Qed.

Lemma aligned_total (previous_data current_data : snapshot) :
  let part_headers := skipn 2 (nth 1 current_data []) in
  let prev_values := skipn 2 (nth 0 previous_data []) in
  let curr_values := skipn 2 (nth 0 current_data []) in
  let n := Nat.min (length part_headers) (length curr_values) in
  aligned previous_data current_data
  = Ok (firstn n part_headers, resize n prev_values, firstn n curr_values).
Proof.
  intros part_headers prev_values curr_values n. unfold aligned.
  rewrite !cells_from_total, !row_length_total. cbn [bind].
  fold part_headers prev_values curr_values.
  pose proof (validate_reconcile part_headers prev_values curr_values) as H.
  cbv zeta in H. fold n in H.
  destruct (validate part_headers prev_values curr_values) as [[h p] c].
  now rewrite H.
Qed.

Lemma label_changes_total (previous_data current_data : snapshot) :
  let part_headers := skipn 2 (nth 1 current_data []) in
  let prev_values := skipn 2 (nth 0 previous_data []) in
  let curr_values := skipn 2 (nth 0 current_data []) in
  let n := Nat.min (length part_headers) (length curr_values) in
  label_changes previous_data current_data
  = Ok (filter changed
          (zip3 (firstn n part_headers) (resize n prev_values)
                (firstn n curr_values))).
Proof.
  cbv zeta. unfold label_changes.
  rewrite aligned_total. cbn [bind].
  apply compare_values_filter.
Qed.

(** The total check raises exactly when it reaches [current_data[0]] on an
    empty current snapshot; otherwise it yields at most one change. *)
Lemma total_change_ok (previous_data current_data : snapshot) :
  previous_data <> [] -> current_data <> [] ->
  total_change previous_data current_data
  = Ok (if (1 <? length (nth 0 previous_data []))
           && (1 <? length (nth 0 current_data []))
           && changed ("TOTAL WEIGHTS", cell previous_data 0 1, cell current_data 0 1)
        then [("TOTAL WEIGHTS", cell previous_data 0 1, cell current_data 0 1)]
        else []).
Proof.
  intros Hp Hc. unfold total_change, cell, changed.
  destruct previous_data as [|prev_0 prest]; [congruence|].
  destruct current_data as [|curr_0 crest]; [congruence|].
  cbn [Py.getitem nth_error bind nth].
  destruct (Nat.ltb_spec 1 (length prev_0)) as [H1 | H1]; cbn [andb];
    [|reflexivity].
  destruct (Nat.ltb_spec 1 (length curr_0)) as [H2 | H2]; cbn [andb];
    [|reflexivity].
  fold (Py.getitem prev_0 1). fold (Py.getitem curr_0 1).
  rewrite (getitem_nth prev_0 "" H1), (getitem_nth curr_0 "" H2). cbn [bind].
  destruct (negb _); reflexivity.
Qed.

Lemma total_change_short_previous (previous_data current_data : snapshot) :
  previous_data <> [] -> length (nth 0 previous_data []) <= 1 ->
  total_change previous_data current_data = Ok [].
Proof.
  intros Hp Hlen. unfold total_change.
  destruct previous_data as [|prev_0 prest]; [congruence|].
  cbn [Py.getitem nth_error bind]. simpl in Hlen.
  destruct (Nat.ltb_spec 1 (length prev_0)); [lia | reflexivity].
Qed.

Lemma total_change_raises (previous_data : snapshot) :
  previous_data <> [] -> 1 < length (nth 0 previous_data []) ->
  total_change previous_data [] = Raise IndexError.
Proof.
  intros Hp Hlen. unfold total_change.
  destruct previous_data as [|prev_0 prest]; [congruence|].
  cbn [Py.getitem nth_error bind]. simpl in Hlen.
  destruct (Nat.ltb_spec 1 (length prev_0)); [reflexivity | lia].
Qed.

Lemma detect_changes_try_ok (previous_data current_data : snapshot) :
  previous_data <> [] -> current_data <> [] ->
  exists changes total,
    label_changes previous_data current_data = Ok changes
    /\ total_change previous_data current_data = Ok total
    /\ detect_changes_try previous_data current_data = Ok (changes ++ total).
Proof.
  intros Hp Hc. unfold detect_changes_try.
  rewrite label_changes_total, (total_change_ok Hp Hc). cbn [bind].
  eauto.
Qed.

(** The try block fails only on an empty current snapshot. *)
Lemma detect_changes_try_raises (previous_data current_data : snapshot) (e : exn) :
  previous_data <> [] ->
  detect_changes_try previous_data current_data = Raise e ->
  current_data = [].
Proof.
  intros Hp Hraise.
  destruct current_data as [|curr_0 crest]; [reflexivity|].
  destruct (@detect_changes_try_ok previous_data (curr_0 :: crest) Hp)
    as (changes & total & _ & _ & Hok); [congruence|].
  congruence.
Qed.

(** The try block fails exactly when the total check reaches
    [current_data[0]] on an empty current snapshot. *)
Lemma detect_changes_try_raises_iff (previous_data current_data : snapshot) :
  previous_data <> [] ->
  detect_changes_try previous_data current_data = Raise IndexError
  <-> current_data = [] /\ 2 <= length (nth 0 previous_data []).
Proof.
  intros Hp. split.
  - intros Hraise.
    pose proof (@detect_changes_try_raises previous_data current_data _ Hp Hraise) as ->.
    split; [reflexivity|].
    destruct (Nat.le_gt_cases (length (nth 0 previous_data [])) 1) as [H | H];
      [|exact H].
    unfold detect_changes_try in Hraise.
    rewrite label_changes_total, (@total_change_short_previous previous_data [] Hp H) in Hraise.
    discriminate Hraise.
  - intros [-> H]. unfold detect_changes_try.
    rewrite label_changes_total, (@total_change_raises previous_data Hp H). reflexivity.
Qed.

Lemma strip_eqb_refl (s : string) : String.eqb (Py.strip s) (Py.strip s) = true.
Proof. apply String.eqb_refl. Qed.

Lemma filter_changed_same (labels values : list string) :
  filter changed (zip3 labels values values) = [].
Proof.
  revert values. induction labels as [|l labels IH]; intros [|v values];
    try reflexivity.
  cbn [zip3 filter changed]. rewrite strip_eqb_refl. cbn [negb]. apply IH.
Qed.

Lemma detect_changes_some (previous_data current_data : snapshot) (d : disk) :
  previous_data <> [] ->
  detect_changes (Some previous_data) current_data d
  = match detect_changes_try previous_data current_data with
    | Ok changes => (Ok changes, d)
    | Raise _ => detect_changes_except current_data d
    end.
Proof.
  intros Hp. unfold detect_changes.
  destruct previous_data; [congruence | reflexivity].
Qed.

Lemma row0_nonempty (data : snapshot) (n : nat) :
  S n <= length (nth 0 data []) -> data <> [].
Proof. destruct data; simpl; [lia | congruence]. Qed.

(** Only row 0 of the previous snapshot reaches the comparison. *)
Lemma detect_changes_previous_row0
    (prev_0 : row) (prest prest' : snapshot) (current_data : snapshot) (d : disk) :
  detect_changes (Some (prev_0 :: prest)) current_data d
  = detect_changes (Some (prev_0 :: prest')) current_data d.
Proof.
  unfold detect_changes. cbn [Py.falsy].
  assert (H : detect_changes_try (prev_0 :: prest) current_data
              = detect_changes_try (prev_0 :: prest') current_data).
  { unfold detect_changes_try. rewrite !label_changes_total. reflexivity. }
  now rewrite H.
Qed.

(** ** Theorems *)

(** C6: when the previous snapshot is absent, [None] or an empty list,
    [detect_changes] returns the empty change list, whatever the current
    snapshot is, and leaves the state file alone. *)
Theorem detect_changes_no_previous :
  forall (current_data : snapshot) (d : disk),
    detect_changes None current_data d = (Ok [], d)
    /\ detect_changes (Some []) current_data d = (Ok [], d).
Proof. intros current_data d. split; reflexivity. Qed.

(** C5: a snapshot of at least 3 rows compared with itself gives the
    empty change list. *)
Theorem detect_changes_same :
  forall (S : snapshot) (d : disk),
    3 <= length S ->
    detect_changes (Some S) S d = (Ok [], d).
Proof.
  intros S d HS.
  assert (Hne : S <> []) by (destruct S; simpl in HS; [lia | congruence]).
  rewrite (detect_changes_some _ _ Hne). unfold detect_changes_try.
  rewrite label_changes_total, (total_change_ok Hne Hne). cbn [bind].
  set (n := Nat.min _ _).
  assert (Hres : resize n (skipn 2 (nth 0 S [])) = firstn n (skipn 2 (nth 0 S []))).
  { unfold resize. replace (n - _) with 0 by (unfold n; lia).
    apply app_nil_r. }
  rewrite Hres, filter_changed_same.
  unfold changed. rewrite strip_eqb_refl. cbn [negb].
  rewrite andb_false_r. reflexivity.
Qed.

Lemma detect_changes_same_witness :
  let S := [["2024-01-01"; "100"; ""; "x"]; [""; "TYPE"; "WINGS"]; []] in
  3 <= length S
  /\ detect_changes (Some S) S (mkDisk None WriteOk) = (Ok [], mkDisk None WriteOk).
Proof.
  cbv zeta. split.
  - simpl. lia.
  - apply detect_changes_same. simpl. lia.
Defined.

(** C7: the labels come from row 1 of the current snapshot alone.  Two
    previous snapshots that differ only in their row 1 give the same
    result, and every change reported carries either a label of the
    current row 1 (from column 2 on) or the label of the total check. *)
Theorem labels_from_current_only :
  forall (prev_0 prev_1 prev_1' : row) (prest : snapshot)
         (current_data : snapshot) (d : disk),
    detect_changes (Some (prev_0 :: prev_1 :: prest)) current_data d
    = detect_changes (Some (prev_0 :: prev_1' :: prest)) current_data d
    /\ exists changes,
         fst (detect_changes (Some (prev_0 :: prev_1 :: prest)) current_data d)
         = Ok changes
         /\ Forall (fun t : Change =>
                      In (fst (fst t)) (skipn 2 (nth 1 current_data []))
                      \/ t = ("TOTAL WEIGHTS", nth 1 prev_0 "", cell current_data 0 1))
                   changes.
Proof.
  intros prev_0 prev_1 prev_1' prest current_data d. split.
  - apply detect_changes_previous_row0.
  - unfold detect_changes. cbn [Py.falsy].
    destruct current_data as [|curr_0 crest].
    + (* nothing to label: the result is empty or the handler's [] *)
      destruct (detect_changes_try (prev_0 :: prev_1 :: prest) []) as [changes|e] eqn:Htry.
      * exists changes. split; [reflexivity|].
        unfold detect_changes_try in Htry.
        rewrite label_changes_total in Htry. cbn [bind] in Htry.
        destruct (total_change _ _) as [total|] eqn:Htotal; [|discriminate].
        unfold total_change in Htotal. cbn [Py.getitem nth_error bind] in Htotal.
        destruct (1 <? length prev_0); [discriminate|].
        injection Htotal as <-. injection Htry as <-.
        constructor.
      * exists []. split; [reflexivity | constructor].
    + assert (Hp : prev_0 :: prev_1 :: prest <> []) by congruence.
      assert (Hc : curr_0 :: crest <> []) by congruence.
      unfold detect_changes_try.
      rewrite label_changes_total, (total_change_ok Hp Hc). cbn [bind fst].
      eexists. split; [reflexivity|].
      apply Forall_app. split.
      * apply Forall_forall. intros [[l p] c] Hin.
        apply filter_In in Hin. destruct Hin as [Hin _].
        apply zip3_In in Hin. left. cbn [fst].
        eapply In_firstn. eassumption.
      * destruct (_ && _ && _); constructor; [|constructor].
        right. reflexivity.
Qed.

(** C1, amended: when row 0 of both snapshots has at least 2 cells and the
    two column-1 cells differ once stripped, [detect_changes] returns the
    per-label changes followed by exactly one more change, labelled
    "TOTAL WEIGHTS", that carries the previous and the current total cell. *)
Theorem total_change_appended_last :
  forall (previous_data current_data : snapshot) (d : disk),
    2 <= length (nth 0 previous_data []) ->
    2 <= length (nth 0 current_data []) ->
    Py.strip (cell previous_data 0 1) <> Py.strip (cell current_data 0 1) ->
    exists per_label,
      label_changes previous_data current_data = Ok per_label
      /\ detect_changes (Some previous_data) current_data d
         = (Ok (per_label
                ++ [("TOTAL WEIGHTS", cell previous_data 0 1, cell current_data 0 1)]),
            d).
Proof.
  intros previous_data current_data d Hp Hc Hdiff.
  pose proof (row0_nonempty Hp) as Hpne.
  pose proof (row0_nonempty Hc) as Hcne.
  rewrite (detect_changes_some _ _ Hpne). unfold detect_changes_try.
  rewrite label_changes_total, (total_change_ok Hpne Hcne). cbn [bind].
  eexists. split; [reflexivity|].
  apply Nat.ltb_lt in Hp, Hc. rewrite Hp, Hc. cbn [andb].
  unfold changed. apply String.eqb_neq in Hdiff. rewrite Hdiff. reflexivity.
Qed.

Lemma total_change_appended_last_witness :
  let previous := [["2024-01-01"; "100"; "10"]; [""; "PARTS TYPE"; "WINGS"]; []] in
  let current := [["2024-01-02"; "105"; "15"]; [""; "PARTS TYPE"; "WINGS"]; []] in
  let d := mkDisk (Some (Pickled previous)) WriteOk in
  (2 <= length (nth 0 previous []) /\ 2 <= length (nth 0 current [])
   /\ Py.strip (cell previous 0 1) <> Py.strip (cell current 0 1))
  /\ exists per_label,
       label_changes previous current = Ok per_label
       /\ detect_changes (Some previous) current d
          = (Ok (per_label ++ [("TOTAL WEIGHTS", "100", "105")]), d).
Proof.
  cbv zeta.
  assert (H2 : 2 <= 3) by lia.
  assert (Hdiff : "100" <> "105") by discriminate.
  split.
  - split; [exact H2 | split; [exact H2 | exact Hdiff]].
  - exact (@total_change_appended_last
             [["2024-01-01"; "100"; "10"]; [""; "PARTS TYPE"; "WINGS"]; []]
             [["2024-01-02"; "105"; "15"]; [""; "PARTS TYPE"; "WINGS"]; []]
             _ H2 H2 Hdiff).
Defined.

(** C1 as written fails on the label: on these two snapshots the total
    cells differ, and the change appended after the WINGS change is
    labelled "TOTAL WEIGHTS"; no change labelled "TOTAL" ends the list. *)
Lemma total_label_is_not_TOTAL :
  let previous := [["2024-01-01"; "100"; "10"]; [""; "PARTS TYPE"; "WINGS"]; []] in
  let current := [["2024-01-02"; "105"; "15"]; [""; "PARTS TYPE"; "WINGS"]; []] in
  let d := mkDisk (Some (Pickled previous)) WriteOk in
  2 <= length (nth 0 previous [])
  /\ 2 <= length (nth 0 current [])
  /\ Py.strip (cell previous 0 1) <> Py.strip (cell current 0 1)
  /\ fst (detect_changes (Some previous) current d)
     = Ok [("WINGS", "10", "15"); ("TOTAL WEIGHTS", "100", "105")]
  /\ ~ (exists per_label,
          fst (detect_changes (Some previous) current d)
          = Ok (per_label ++ [("TOTAL", cell previous 0 1, cell current 0 1)])).
Proof.
  cbv zeta. repeat split.
  - simpl. lia.
  - simpl. lia.
  - vm_compute. discriminate.
  - intros [per_label H]. vm_compute in H.
    injection H as H.
    change ([("WINGS", "10", "15")] ++ [("TOTAL WEIGHTS", "100", "105")]
            = per_label ++ [("TOTAL", "100", "105")]) in H.
    apply app_inj_tail in H. destruct H as [_ H]. discriminate H.
Qed.

(** C3: the loop reports exactly the aligned triples whose two values
    differ as stripped strings, in the order of the labels; this is the
    per-label part of what [detect_changes] returns.  A value " 5 "
    against "5" is no change; "5.0" against "5" is one. *)
Theorem compare_stripped_strings :
  (forall part_headers prev_values curr_values : list string,
      compare_values (seq 0 (length part_headers))
        part_headers prev_values curr_values []
      = Ok (filter changed (zip3 part_headers prev_values curr_values)))
  /\ (forall l p c : string,
         changed (l, p, c) = true <-> Py.strip p <> Py.strip c)
  /\ (forall (prev_0 curr_0 : row) (prest crest : snapshot) (d : disk),
         exists labels prevs currs total,
           aligned (prev_0 :: prest) (curr_0 :: crest) = Ok (labels, prevs, currs)
           /\ length prevs = length labels
           /\ length currs = length labels
           /\ total_change (prev_0 :: prest) (curr_0 :: crest) = Ok total
           /\ detect_changes (Some (prev_0 :: prest)) (curr_0 :: crest) d
              = (Ok (filter changed (zip3 labels prevs currs) ++ total), d))
  /\ (forall (date date' total total' a b l : string) (prest crest : snapshot),
         label_changes ([date; total; " 5 "] :: prest)
           ([date'; total'; "5"] :: [a; b; l] :: crest)
         = Ok []
         /\ label_changes ([date; total; "5.0"] :: prest)
              ([date'; total'; "5"] :: [a; b; l] :: crest)
            = Ok [(l, "5.0", "5")])
  /\ (forall (date date' total a b l : string) (prest crest : snapshot) (d : disk),
         detect_changes (Some ([date; total; " 5 "] :: prest))
           ([date'; total; "5"] :: [a; b; l] :: crest) d
         = (Ok [], d)
         /\ detect_changes (Some ([date; total; "5.0"] :: prest))
              ([date'; total; "5"] :: [a; b; l] :: crest) d
            = (Ok [(l, "5.0", "5")], d)).
Proof.
  split; [exact compare_values_filter|].
  split.
  { intros l p c. unfold changed. rewrite negb_true_iff. apply String.eqb_neq. }
  split.
  { intros prev_0 curr_0 prest crest d.
    assert (Hp : prev_0 :: prest <> []) by congruence.
    assert (Hc : curr_0 :: crest <> []) by congruence.
    rewrite (detect_changes_some _ _ Hp). unfold detect_changes_try.
    rewrite label_changes_total, aligned_total, (total_change_ok Hp Hc).
    cbn [bind]. do 4 eexists.
    split; [reflexivity|].
    split; [|split; [|split; reflexivity]].
    - rewrite resize_length, length_firstn. lia.
    - rewrite !length_firstn. lia. }
  split.
  { intros date date' total total' a b l prest crest.
    rewrite !label_changes_total. split; reflexivity. }
  intros date date' total a b l prest crest d.
  unfold detect_changes, detect_changes_try. cbn [Py.falsy].
  rewrite !label_changes_total, !total_change_ok by congruence.
  unfold cell, changed. cbn [nth skipn length Nat.min firstn resize].
  rewrite String.eqb_refl. split; reflexivity.
Qed.

(** C2: the previous values that enter the comparison are the extracted
    previous values padded at the tail with empty strings when they are
    fewer than the current values under comparison (the current values cut
    to the number of labels), and cut to that length when they are more.
    With values "1","2" before and labels "A","B","C" over values
    "1","2","3" now, the one per-label change is ("C", "", "3"), and it is
    all [detect_changes] returns when the total cells agree. *)
Theorem previous_values_padded_or_truncated :
  (forall previous_data current_data : snapshot,
      exists headers0 prev0 curr0 part_headers prev_values curr_values,
        cells_from current_data 1 = Ok headers0
        /\ cells_from previous_data 0 = Ok prev0
        /\ cells_from current_data 0 = Ok curr0
        /\ aligned previous_data current_data
           = Ok (part_headers, prev_values, curr_values)
        /\ part_headers = firstn (length curr0) headers0
        /\ curr_values = firstn (length headers0) curr0
        /\ length prev_values = length curr_values
        /\ (length prev0 < length curr_values ->
            prev_values
            = prev0 ++ repeat "" (length curr_values - length prev0))
        /\ (length curr_values < length prev0 ->
            prev_values = firstn (length curr_values) prev0)
        /\ (length prev0 = length curr_values -> prev_values = prev0))
  /\ (forall prev_values curr_values : list string,
         (length prev_values < length curr_values ->
          reconcile prev_values curr_values
          = prev_values ++ repeat "" (length curr_values - length prev_values))
         /\ (length curr_values < length prev_values ->
             reconcile prev_values curr_values
             = firstn (length curr_values) prev_values))
  /\ (forall (date date' total total' a b a' b' : string)
             (prest crest : snapshot) (d : disk),
         label_changes
           ([date; total; "1"; "2"] :: [a; b; "A"; "B"] :: prest)
           ([date'; total'; "1"; "2"; "3"] :: [a'; b'; "A"; "B"; "C"] :: crest)
         = Ok [("C", "", "3")]
         /\ (Py.strip total = Py.strip total' ->
             detect_changes
               (Some ([date; total; "1"; "2"] :: [a; b; "A"; "B"] :: prest))
               ([date'; total'; "1"; "2"; "3"] :: [a'; b'; "A"; "B"; "C"] :: crest)
               d
             = (Ok [("C", "", "3")], d))).
Proof.
  split; [|split].
  - intros previous_data current_data.
    exists (skipn 2 (nth 1 current_data [])), (skipn 2 (nth 0 previous_data [])),
           (skipn 2 (nth 0 current_data [])).
    rewrite !cells_from_total, aligned_total.
    set (headers0 := skipn 2 (nth 1 current_data [])).
    set (prev0 := skipn 2 (nth 0 previous_data [])).
    set (curr0 := skipn 2 (nth 0 current_data [])).
    set (n := Nat.min (length headers0) (length curr0)).
    assert (Hh : firstn n headers0 = firstn (length curr0) headers0).
    { unfold n. destruct (Nat.le_ge_cases (length headers0) (length curr0)).
      - rewrite Nat.min_l, firstn_all, firstn_all2 by assumption. reflexivity.
      - rewrite Nat.min_r by assumption. reflexivity. }
    assert (Hc : firstn n curr0 = firstn (length headers0) curr0).
    { unfold n. destruct (Nat.le_ge_cases (length headers0) (length curr0)).
      - rewrite Nat.min_l by assumption. reflexivity.
      - rewrite Nat.min_r, firstn_all, firstn_all2 by assumption. reflexivity. }
    assert (Hlen : length (firstn n curr0) = n).
    { rewrite length_firstn. unfold n. lia. }
    do 3 eexists. repeat (split; [reflexivity|]).
    split; [exact Hh|]. split; [exact Hc|].
    rewrite Hlen, resize_length. split; [reflexivity|].
    unfold resize. repeat split; intros Hcmp.
    + rewrite firstn_all2 by lia. reflexivity.
    + replace (n - length prev0) with 0 by lia. apply app_nil_r.
    + rewrite <- Hcmp, firstn_all, Nat.sub_diag. apply app_nil_r.
  - intros prev_values curr_values. unfold reconcile. split; intros Hcmp.
    + apply Nat.ltb_lt in Hcmp. now rewrite Hcmp.
    + destruct (Nat.ltb_spec (length prev_values) (length curr_values)); [lia|].
      apply Nat.ltb_lt in Hcmp. now rewrite Hcmp.
  - intros date date' total total' a b a' b' prest crest d.
    split; [rewrite label_changes_total; reflexivity|].
    intros Htotal.
    unfold detect_changes, detect_changes_try. cbn [Py.falsy].
    rewrite !label_changes_total, !total_change_ok by congruence.
    unfold cell, changed. cbn [nth skipn length Nat.min firstn resize].
    rewrite Htotal, String.eqb_refl. reflexivity.
Qed.

Lemma previous_values_padded_or_truncated_witness :
  let previous := [["2024-01-01"; "3"; "1"; "2"]; [""; "TYPE"; "A"; "B"]; []] in
  let current := [["2024-01-02"; " 3"; "1"; "2"; "3"];
                  [""; "TYPE"; "A"; "B"; "C"]; []] in
  aligned previous current
  = Ok (["A"; "B"; "C"], ["1"; "2"] ++ repeat "" (3 - 2), ["1"; "2"; "3"])
  /\ reconcile ["1"; "2"; "3"] ["1"; "2"] = firstn 2 ["1"; "2"; "3"]
  /\ detect_changes (Some previous) current (mkDisk (Some (Pickled previous)) WriteOk)
     = (Ok [("C", "", "3")], mkDisk (Some (Pickled previous)) WriteOk).
Proof.
  cbv zeta. split; [|split].
  - destruct (proj1 previous_values_padded_or_truncated
                [["2024-01-01"; "3"; "1"; "2"]; [""; "TYPE"; "A"; "B"]; []]
                [["2024-01-02"; " 3"; "1"; "2"; "3"];
                 [""; "TYPE"; "A"; "B"; "C"]; []])
      as (headers0 & prev0 & curr0 & part_headers & prev_values & curr_values
          & Hh0 & Hp0 & Hc0 & Hal & Hh & Hc & _ & Hpad & _ & _).
    vm_compute in Hh0, Hp0, Hc0.
    injection Hh0 as <-. injection Hp0 as <-. injection Hc0 as <-.
    rewrite Hal. subst part_headers curr_values.
    rewrite Hpad by (simpl; lia). reflexivity.
  - apply (proj1 (proj2 previous_values_padded_or_truncated)). simpl. lia.
  - apply (proj2 (proj2 previous_values_padded_or_truncated)). reflexivity.
Defined.

(** C10: when the current snapshot yields no labels (fewer than 2 rows, or
    a row 1 of at most 2 cells) while row 0 of both snapshots has at least
    2 cells, no per-label change is reported, the two column-1 cells are
    still compared, and the result is the total change alone whenever they
    differ once stripped. *)
Theorem total_only_alert :
  forall (previous_data current_data : snapshot) (d : disk),
    length current_data < 2 \/ length (nth 1 current_data []) <= 2 ->
    2 <= length (nth 0 previous_data []) ->
    2 <= length (nth 0 current_data []) ->
    label_changes previous_data current_data = Ok []
    /\ detect_changes (Some previous_data) current_data d
       = (Ok (if String.eqb (Py.strip (cell previous_data 0 1))
                            (Py.strip (cell current_data 0 1))
              then []
              else [("TOTAL WEIGHTS", cell previous_data 0 1,
                     cell current_data 0 1)]),
          d).
Proof.
  intros previous_data current_data d Hlabels Hp Hc.
  pose proof (row0_nonempty Hp) as Hpne.
  pose proof (row0_nonempty Hc) as Hcne.
  assert (Hnone : skipn 2 (nth 1 current_data []) = []).
  { apply skipn_all2. destruct Hlabels as [H | H]; [|exact H].
    rewrite nth_overflow by lia. simpl. lia. }
  assert (Hlab : label_changes previous_data current_data = Ok []).
  { rewrite label_changes_total, Hnone. reflexivity. }
  split; [exact Hlab|].
  rewrite (detect_changes_some _ _ Hpne). unfold detect_changes_try.
  rewrite Hlab, (total_change_ok Hpne Hcne). cbn [bind app].
  apply Nat.ltb_lt in Hp, Hc. rewrite Hp, Hc. cbn [andb].
  unfold changed. destruct (String.eqb _ _); reflexivity.
Qed.

Lemma total_only_alert_witness :
  let previous := [["2024-01-01"; "100"; "10"]; [""; "TYPE"; "WINGS"]; []] in
  let current := [["2024-01-02"; "120"; "15"]; [""; "TYPE"]; []] in
  let d := mkDisk (Some (Pickled previous)) WriteOk in
  (length (nth 1 current []) <= 2
   /\ 2 <= length (nth 0 previous []) /\ 2 <= length (nth 0 current []))
  /\ label_changes previous current = Ok []
  /\ detect_changes (Some previous) current d
     = (Ok [("TOTAL WEIGHTS", "100", "120")], d).
Proof.
  cbv zeta.
  assert (H1 : 2 <= 2) by lia.
  assert (H2 : 2 <= 3) by lia.
  split.
  - split; [exact H1 | split; exact H2].
  - exact (@total_only_alert
             [["2024-01-01"; "100"; "10"]; [""; "TYPE"; "WINGS"]; []]
             [["2024-01-02"; "120"; "15"]; [""; "TYPE"]; []]
             _ (or_intror H1) H2 H2).
Defined.

(** Saving on a disk that accepts the write stores a snapshot of at least
    3 rows; a shorter one is skipped; a write that fails raises. *)
Lemma save_current_state_cases (state : snapshot) (d : disk) :
  (3 <= length state -> writes d = WriteOk ->
   exists d',
     save_current_state state d = (Ok tt, d')
     /\ load_previous_state d' = Some state)
  /\ (length state < 3 -> save_current_state state d = (Ok tt, d))
  /\ (3 <= length state -> writes d <> WriteOk ->
      fst (save_current_state state d) = Raise APIError).
Proof.
  assert (Hvalid : 3 <= length state ->
                   Py.falsy state || (length state <? 3) = false).
  { intros Hlen. apply orb_false_iff. split.
    - apply falsy_length. lia.
    - apply Nat.ltb_ge. exact Hlen. }
  split; [|split].
  - intros Hlen Hw. unfold save_current_state.
    rewrite (Hvalid Hlen), Hw. eexists. split; [reflexivity|].
    unfold load_previous_state. cbn [previous_state_file].
    rewrite (Hvalid Hlen). reflexivity.
  - intros Hlen. unfold save_current_state.
    assert (Hinvalid : Py.falsy state || (length state <? 3) = true).
    { apply orb_true_iff. right. apply Nat.ltb_lt. exact Hlen. }
    rewrite Hinvalid. reflexivity.
  - intros Hlen Hw. unfold save_current_state. rewrite (Hvalid Hlen).
    destruct (writes d); [congruence | reflexivity | reflexivity].
Qed.

(** C9: on a disk that accepts the write, saving a snapshot of at least 3
    rows and then loading returns that snapshot; saving a snapshot of
    fewer than 3 rows changes nothing, so loading afterwards returns what
    it returned before. *)
Theorem save_load_round_trip :
  forall (state : snapshot) (d : disk),
    (3 <= length state -> writes d = WriteOk ->
     exists d',
       save_current_state state d = (Ok tt, d')
       /\ load_previous_state d' = Some state)
    /\ (length state < 3 ->
        save_current_state state d = (Ok tt, d)
        /\ load_previous_state (snd (save_current_state state d))
           = load_previous_state d).
Proof.
  intros state d. split.
  - exact (proj1 (save_current_state_cases state d)).
  - intros Hlen.
    rewrite (proj1 (proj2 (save_current_state_cases state d)) Hlen).
    split; reflexivity.
Qed.

Lemma save_load_round_trip_witness :
  let state := [["2024-01-01"; "100"; ""; "x"]; [""; "TYPE"; "WINGS"]; []] in
  let short := [["2024-01-01"; "100"; ""; "x"]; [""; "TYPE"; "WINGS"]] in
  let d := mkDisk None WriteOk in
  let d' := mkDisk (Some (Pickled state)) WriteOk in
  (exists d1, save_current_state state d = (Ok tt, d1)
              /\ load_previous_state d1 = Some state)
  /\ save_current_state short d' = (Ok tt, d')
  /\ load_previous_state (snd (save_current_state short d'))
     = load_previous_state d'.
Proof.
  cbv zeta.
  assert (H3 : 3 <= 3) by lia.
  assert (H2 : 2 < 3) by lia.
  split.
  - exact (proj1 (save_load_round_trip
                    [["2024-01-01"; "100"; ""; "x"]; [""; "TYPE"; "WINGS"]; []]
                    (mkDisk None WriteOk)) H3 eq_refl).
  - exact (proj2 (save_load_round_trip
                    [["2024-01-01"; "100"; ""; "x"]; [""; "TYPE"; "WINGS"]]
                    (mkDisk
                       (Some (Pickled
                          [["2024-01-01"; "100"; ""; "x"];
                           [""; "TYPE"; "WINGS"]; []]))
                       WriteOk)) H2).
Defined.

(** ** Further properties of the code *)

(** The closed form of a comparison against a non-empty previous
    snapshot.  When the current one is empty both parts are empty, whether
    the try block returned or its handler did. *)
Lemma detect_changes_closed (previous_data current_data : snapshot) (d : disk) :
  previous_data <> [] ->
  let part_headers := skipn 2 (nth 1 current_data []) in
  let prev_values := skipn 2 (nth 0 previous_data []) in
  let curr_values := skipn 2 (nth 0 current_data []) in
  let n := Nat.min (length part_headers) (length curr_values) in
  let total := ("TOTAL WEIGHTS", cell previous_data 0 1, cell current_data 0 1) in
  detect_changes (Some previous_data) current_data d
  = (Ok (filter changed
           (zip3 (firstn n part_headers) (resize n prev_values)
                 (firstn n curr_values))
         ++ (if (1 <? length (nth 0 previous_data []))
                && (1 <? length (nth 0 current_data []))
                && changed total
             then [total] else [])),
     d).
Proof.
  intros Hp. cbv zeta.
  rewrite (detect_changes_some _ _ Hp). unfold detect_changes_try.
  rewrite label_changes_total.
  destruct current_data as [|curr_0 crest].
  - cbn [nth skipn length Nat.min firstn zip3 filter bind app Nat.ltb Nat.leb andb].
    rewrite andb_false_r. cbn [andb].
    destruct (Nat.le_gt_cases (length (nth 0 previous_data [])) 1) as [H | H].
    + now rewrite (@total_change_short_previous previous_data [] Hp H).
    + now rewrite (@total_change_raises previous_data Hp H).
  - assert (Hc : curr_0 :: crest <> []) by congruence.
    now rewrite (total_change_ok Hp Hc).
Qed.

(** [detect_changes] always returns a list and hands the disk back as it
    got it. *)
Lemma detect_changes_returns (previous_data : option snapshot)
    (current_data : snapshot) (d : disk) :
  exists changes, detect_changes previous_data current_data d = (Ok changes, d).
Proof.
  destruct previous_data as [previous|]; [|exists []; reflexivity].
  destruct previous as [|prev_0 prest]; [exists []; reflexivity|].
  assert (Hp : prev_0 :: prest <> []) by congruence.
  rewrite (detect_changes_some _ _ Hp).
  destruct (detect_changes_try (prev_0 :: prest) current_data) as [changes|e] eqn:Htry.
  - now exists changes.
  - pose proof (@detect_changes_try_raises _ _ e Hp Htry) as ->.
    now exists [].
Qed.

Lemma zip3_length (labels prevs currs : list string) :
  length (zip3 labels prevs currs) <= length labels.
Proof.
  revert prevs currs.
  induction labels as [|l labels IH]; intros [|p prevs] [|c currs]; simpl;
    try lia.
  specialize (IH prevs currs). lia.
Qed.

Lemma zip3_app (labels labels' prevs prevs' currs currs' : list string) :
  length prevs = length labels -> length currs = length labels ->
  zip3 (labels ++ labels') (prevs ++ prevs') (currs ++ currs')
  = zip3 labels prevs currs ++ zip3 labels' prevs' currs'.
Proof.
  revert prevs currs.
  induction labels as [|l labels IH]; intros [|p prevs] [|c currs] Hp Hc;
    simpl in *; try discriminate; [reflexivity|].
  rewrite IH by lia. reflexivity.
Qed.

Lemma zip3_firstn (n : nat) (labels prevs currs : list string) :
  zip3 (firstn n labels) (firstn n prevs) (firstn n currs)
  = firstn n (zip3 labels prevs currs).
Proof.
  revert labels prevs currs.
  induction n as [|n IH]; intros [|l labels] [|p prevs] [|c currs];
    simpl; try reflexivity.
  now rewrite IH.
Qed.

Lemma save_current_state_ok (state : snapshot) (d : disk) :
  3 <= length state -> writes d = WriteOk ->
  save_current_state state d = (Ok tt, mkDisk (Some (Pickled state)) WriteOk).
Proof.
  intros Hlen Hw. unfold save_current_state.
  assert (Hvalid : Py.falsy state || (length state <? 3) = false).
  { apply orb_false_iff. split; [apply falsy_length; lia | apply Nat.ltb_ge; exact Hlen]. }
  now rewrite Hvalid, Hw.
Qed.

Lemma load_saved (state : snapshot) (w : write_outcome) :
  3 <= length state ->
  load_previous_state (mkDisk (Some (Pickled state)) w) = Some state.
Proof.
  intros Hlen. unfold load_previous_state. cbn [previous_state_file].
  assert (Hvalid : Py.falsy state || (length state <? 3) = false).
  { apply orb_false_iff. split; [apply falsy_length; lia | apply Nat.ltb_ge; exact Hlen]. }
  now rewrite Hvalid.
Qed.

(** X1: [get_sheet_data] returns data exactly when the request returned a
    ['values'] list of at least 3 rows, and then returns that list.  The
    message of line 53 never reaches the caller: a missing, empty or short
    list is reported as "Unexpected error while fetching sheet data". *)
Theorem get_sheet_data_validates :
  forall (e : Sheets.execute) (data : snapshot),
    (Sheets.get_sheet_data e = inr data
     <-> e = Sheets.Returns (Some data) /\ 3 <= length data)
    /\ Sheets.get_sheet_data e
       <> inl "Invalid data structure received from Google Sheets"
    /\ (forall values : option snapshot,
           e = Sheets.Returns values ->
           length (match values with Some v => v | None => [] end) < 3 ->
           Sheets.get_sheet_data e
           = inl "Unexpected error while fetching sheet data").
Proof.
  intros e data. unfold Sheets.get_sheet_data, Sheets.get_sheet_data_try.
  split; [|split].
  - split.
    + destruct e as [| |[v|]]; try discriminate.
      destruct (Py.falsy v || (length v <? 3)) eqn:Hv; [discriminate|].
      intros H. injection H as <-.
      apply orb_false_iff in Hv. destruct Hv as [_ Hv].
      apply Nat.ltb_ge in Hv. split; [reflexivity | exact Hv].
    + intros [-> Hlen].
      assert (Hv : Py.falsy data || (length data <? 3) = false).
      { apply orb_false_iff. split; [apply falsy_length; lia | apply Nat.ltb_ge; exact Hlen]. }
      now rewrite Hv.
  - destruct e as [| |[v|]]; try discriminate.
    destruct (Py.falsy v || (length v <? 3)); discriminate.
  - intros values -> Hlen. destruct values as [v|]; [|reflexivity].
    assert (Hv : Py.falsy v || (length v <? 3) = true).
    { apply orb_true_iff. right. apply Nat.ltb_lt. exact Hlen. }
    cbv zeta. now rewrite Hv.
Qed.

Lemma get_sheet_data_validates_witness :
  Sheets.get_sheet_data (Sheets.Returns (Some [["2024-01-01"; "100"]; []]))
  = inl "Unexpected error while fetching sheet data"
  /\ Sheets.get_sheet_data (Sheets.Returns None)
     = inl "Unexpected error while fetching sheet data".
Proof.
  assert (H2 : 2 < 3) by lia.
  assert (H0 : 0 < 3) by lia.
  split.
  - exact (proj2 (proj2 (get_sheet_data_validates
             (Sheets.Returns (Some [["2024-01-01"; "100"]; []])) []))
             (Some [["2024-01-01"; "100"]; []]) eq_refl H2).
  - exact (proj2 (proj2 (get_sheet_data_validates (Sheets.Returns None) []))
             None eq_refl H0).
Defined.

(** X2: [load_previous_state] returns a snapshot exactly when the state
    file is a readable pickle of at least 3 rows, and returns that pickle;
    a missing file, an unreadable one and a short pickle all count as no
    previous state. *)
Theorem load_previous_state_gate :
  forall (d : disk) (state : snapshot),
    load_previous_state d = Some state
    <-> previous_state_file d = Some (Pickled state) /\ 3 <= length state.
Proof.
  intros d state. unfold load_previous_state. split.
  - destruct (previous_state_file d) as [[data|]|]; try discriminate.
    destruct (Py.falsy data || (length data <? 3)) eqn:Hv; [discriminate|].
    intros H. injection H as <-.
    apply orb_false_iff in Hv. destruct Hv as [_ Hv].
    apply Nat.ltb_ge in Hv. split; [reflexivity | exact Hv].
  - intros [-> Hlen].
    assert (Hv : Py.falsy state || (length state <? 3) = false).
    { apply orb_false_iff. split; [apply falsy_length; lia | apply Nat.ltb_ge; exact Hlen]. }
    now rewrite Hv.
Qed.

(** X3: a save replaces the stored snapshot, it never merges: after two
    saves of snapshots of at least 3 rows the load returns the second one,
    and a second save that is skipped (fewer than 3 rows) leaves the first
    one in place. *)
Theorem save_replaces_state :
  forall (first second : snapshot) (d : disk),
    3 <= length first -> writes d = WriteOk ->
    let d1 := snd (save_current_state first d) in
    let d2 := snd (save_current_state second d1) in
    (3 <= length second -> load_previous_state d2 = Some second)
    /\ (length second < 3 -> load_previous_state d2 = Some first).
Proof.
  intros first second d Hfirst Hw. cbv zeta.
  rewrite (@save_current_state_ok first d Hfirst Hw). cbn [snd].
  split; intros Hsecond.
  - rewrite (@save_current_state_ok second
               (mkDisk (Some (Pickled first)) WriteOk) Hsecond eq_refl).
    apply load_saved. exact Hsecond.
  - rewrite (proj1 (proj2 (save_current_state_cases second _)) Hsecond).
    apply load_saved. exact Hfirst.
Qed.

Lemma save_replaces_state_witness :
  let first := [["2024-01-01"; "100"; "10"]; [""; "TYPE"; "WINGS"]; []] in
  let second := [["2024-01-02"; "120"; "15"]; [""; "TYPE"; "WINGS"]; []] in
  let d := mkDisk None WriteOk in
  load_previous_state
    (snd (save_current_state second (snd (save_current_state first d))))
  = Some second
  /\ load_previous_state
       (snd (save_current_state [] (snd (save_current_state first d))))
     = Some first.
Proof.
  cbv zeta.
  assert (H3 : 3 <= 3) by lia.
  assert (H0 : 0 < 3) by lia.
  split.
  - exact (proj1 (@save_replaces_state
             [["2024-01-01"; "100"; "10"]; [""; "TYPE"; "WINGS"]; []]
             [["2024-01-02"; "120"; "15"]; [""; "TYPE"; "WINGS"]; []]
             (mkDisk None WriteOk) H3 eq_refl) H3).
  - exact (proj2 (@save_replaces_state
             [["2024-01-01"; "100"; "10"]; [""; "TYPE"; "WINGS"]; []]
             [] (mkDisk None WriteOk) H3 eq_refl) H0).
Defined.

(** X4: a save of at least 3 rows that the file system refuses raises
    [APIError].  When [os.makedirs] or [open] fails the file is untouched;
    when [pickle.dump] fails after the file was opened for writing, the
    next load finds no previous state. *)
Theorem save_failure :
  forall (state : snapshot) (d : disk),
    3 <= length state ->
    (writes d = OpenFails -> save_current_state state d = (Raise APIError, d))
    /\ (writes d = DumpFails ->
        fst (save_current_state state d) = Raise APIError
        /\ load_previous_state (snd (save_current_state state d)) = None).
Proof.
  intros state d Hlen. unfold save_current_state.
  assert (Hvalid : Py.falsy state || (length state <? 3) = false).
  { apply orb_false_iff. split; [apply falsy_length; lia | apply Nat.ltb_ge; exact Hlen]. }
  rewrite Hvalid. split; intros ->; [reflexivity | split; reflexivity].
Qed.

Lemma save_failure_witness :
  let state := [["2024-01-02"; "120"; "15"]; [""; "TYPE"; "WINGS"]; []] in
  let previous := [["2024-01-01"; "100"; "10"]; [""; "TYPE"; "WINGS"]; []] in
  save_current_state state (mkDisk (Some (Pickled previous)) OpenFails)
  = (Raise APIError, mkDisk (Some (Pickled previous)) OpenFails)
  /\ load_previous_state
       (snd (save_current_state state (mkDisk (Some (Pickled previous)) DumpFails)))
     = None.
Proof.
  cbv zeta.
  assert (H3 : 3 <= 3) by lia.
  split.
  - exact (proj1 (@save_failure
             [["2024-01-02"; "120"; "15"]; [""; "TYPE"; "WINGS"]; []]
             (mkDisk (Some (Pickled
                [["2024-01-01"; "100"; "10"]; [""; "TYPE"; "WINGS"]; []]))
                OpenFails) H3) eq_refl).
  - exact (proj2 (proj2 (@save_failure
             [["2024-01-02"; "120"; "15"]; [""; "TYPE"; "WINGS"]; []]
             (mkDisk (Some (Pickled
                [["2024-01-01"; "100"; "10"]; [""; "TYPE"; "WINGS"]; []]))
                DumpFails) H3) eq_refl)).
Defined.

Lemma filter_changed_stripped_equal (labels prevs currs : list string) :
  map Py.strip prevs = map Py.strip currs ->
  filter changed (zip3 labels prevs currs) = [].
Proof.
  revert prevs currs.
  induction labels as [|l labels IH]; intros [|p prevs] [|c currs] Heq;
    try reflexivity; try discriminate.
  cbn [map] in Heq. injection Heq as Hpc Hrest.
  cbn [zip3 filter changed]. rewrite Hpc, String.eqb_refl. cbn [negb].
  apply IH. exact Hrest.
Qed.

Lemma filter_changed_padding (labels values : list string) :
  length labels = length values ->
  filter changed (zip3 labels (repeat "" (length values)) values)
  = map (fun lc : string * string => (fst lc, "", snd lc))
        (filter (fun lc : string * string =>
                   negb (String.eqb "" (Py.strip (snd lc))))
                (combine labels values)).
Proof.
  revert values.
  induction labels as [|l labels IH]; intros [|v values] Hlen;
    try reflexivity; try discriminate.
  cbn [length repeat zip3 filter changed combine snd].
  change (Py.strip "") with "".
  rewrite IH by (simpl in Hlen; lia).
  destruct (negb (String.eqb "" (Py.strip v))); reflexivity.
Qed.

Lemma resize_exact (values tail : list string) :
  resize (length values) (values ++ tail) = values.
Proof.
  unfold resize. rewrite firstn_app, firstn_all, Nat.sub_diag, length_app.
  replace (length values - (length values + length tail)) with 0 by lia.
  cbn [firstn repeat]. now rewrite !app_nil_r.
Qed.

Lemma firstn_prefix (values tail : list string) (n : nat) :
  length values = n -> firstn n (values ++ tail) = values.
Proof.
  intros <-. rewrite firstn_app, firstn_all, Nat.sub_diag.
  cbn [firstn]. apply app_nil_r.
Qed.

Lemma resize_prefix (values tail : list string) (n : nat) :
  length values = n -> resize n (values ++ tail) = values.
Proof. intros <-. apply resize_exact. Qed.

Lemma resize_same (values : list string) (n : nat) :
  length values = n -> resize n values = values.
Proof.
  intros H. rewrite <- (app_nil_r values) at 1. now apply resize_prefix.
Qed.

Lemma resize_pad (values : list string) (m : nat) :
  resize (length values + m) values = values ++ repeat "" m.
Proof.
  unfold resize. rewrite firstn_all2 by lia.
  now replace (length values + m - length values) with m by lia.
Qed.

(** X5: whatever the two snapshots are, [detect_changes] returns a list of
    changes and leaves the state file as it found it: on rows of text cells
    its handler's save is never carried out. *)
Theorem detect_changes_keeps_disk :
  forall (previous_data : option snapshot) (current_data : snapshot) (d : disk),
    exists changes,
      detect_changes previous_data current_data d = (Ok changes, d).
Proof. exact detect_changes_returns. Qed.

(** X6: every change [detect_changes] reports is a difference: its old
    and new values are not equal once stripped.  This holds for the
    per-label changes and for the total change alike. *)
Theorem reported_changes_differ :
  forall (previous_data : option snapshot) (current_data : snapshot) (d : disk),
    exists changes,
      fst (detect_changes previous_data current_data d) = Ok changes
      /\ Forall (fun t : Change => Py.strip (snd (fst t)) <> Py.strip (snd t))
                changes.
Proof.
  intros previous_data current_data d.
  destruct previous_data as [previous|]; [|exists []; split; [reflexivity | constructor]].
  destruct previous as [|prev_0 prest]; [exists []; split; [reflexivity | constructor]|].
  assert (Hp : prev_0 :: prest <> []) by congruence.
  rewrite (detect_changes_closed current_data d Hp). cbn [fst].
  eexists. split; [reflexivity|].
  assert (Hchanged : forall t : Change,
             changed t = true -> Py.strip (snd (fst t)) <> Py.strip (snd t)).
  { intros [[l p] c] H. unfold changed in H. cbn [fst snd].
    apply String.eqb_neq. now apply negb_true_iff. }
  apply Forall_app. split.
  - apply Forall_forall. intros t Hin. apply filter_In in Hin.
    apply Hchanged. exact (proj2 Hin).
  - destruct (_ && _ && changed _) eqn:Hcond; constructor; [|constructor].
    apply Hchanged. apply andb_true_iff in Hcond. exact (proj2 Hcond).
Qed.

(** X7: [detect_changes] reports at most one change per compared
    position, and the compared positions are as many as the shorter of the
    current label list and the current value list; with the total change
    that bounds the length of the result. *)
Theorem number_of_changes_bounded :
  forall (previous_data : option snapshot) (current_data : snapshot) (d : disk),
    exists changes,
      fst (detect_changes previous_data current_data d) = Ok changes
      /\ length changes
         <= Nat.min (length (skipn 2 (nth 1 current_data [])))
                    (length (skipn 2 (nth 0 current_data []))) + 1.
Proof.
  intros previous_data current_data d.
  destruct previous_data as [previous|]; [|exists []; split; [reflexivity | simpl; lia]].
  destruct previous as [|prev_0 prest]; [exists []; split; [reflexivity | simpl; lia]|].
  assert (Hp : prev_0 :: prest <> []) by congruence.
  rewrite (detect_changes_closed current_data d Hp). cbn [fst].
  eexists. split; [reflexivity|].
  set (n := Nat.min _ _).
  rewrite length_app.
  pose proof (filter_length_le changed
                (zip3 (firstn n (skipn 2 (nth 1 current_data [])))
                      (resize n (skipn 2 (nth 0 (prev_0 :: prest) [])))
                      (firstn n (skipn 2 (nth 0 current_data []))))) as Hf.
  pose proof (zip3_length (firstn n (skipn 2 (nth 1 current_data [])))
                (resize n (skipn 2 (nth 0 (prev_0 :: prest) [])))
                (firstn n (skipn 2 (nth 0 current_data [])))) as Hz.
  rewrite length_firstn in Hz.
  assert (Ht : forall (b : bool) (t : Change),
             length (if b then [t] else []) <= 1)
    by (intros [|] t; simpl; lia).
  specialize (Ht ((1 <? length (nth 0 (prev_0 :: prest) []))
                  && (1 <? length (nth 0 current_data []))
                  && changed ("TOTAL WEIGHTS", cell (prev_0 :: prest) 0 1,
                              cell current_data 0 1))
                 ("TOTAL WEIGHTS", cell (prev_0 :: prest) 0 1,
                  cell current_data 0 1)).
  apply Nat.add_le_mono; [|exact Ht].
  etransitivity; [exact Hf|]. etransitivity; [exact Hz|]. apply Nat.le_min_l.
Qed.

(** X8: the date cell (column 0 of row 0) of either snapshot, the first
    two cells of the current label row, and every row after the value row
    of the previous snapshot and after the label row of the current one
    have no influence on the result. *)
Theorem ignored_cells :
  forall (date date' date2 date2' a b a2 b2 : string)
         (prev_0 curr_0 labels : row) (prest prest2 crest crest2 : snapshot)
         (d : disk),
    detect_changes (Some ((date :: prev_0) :: prest))
      ((date' :: curr_0) :: (a :: b :: labels) :: crest) d
    = detect_changes (Some ((date2 :: prev_0) :: prest2))
        ((date2' :: curr_0) :: (a2 :: b2 :: labels) :: crest2) d.
Proof.
  intros.
  rewrite !detect_changes_closed by congruence. reflexivity.
Qed.

Lemma detect_changes_stripped_equal
    (previous_data current_data : snapshot) (d : disk) :
  map Py.strip (nth 0 previous_data []) = map Py.strip (nth 0 current_data []) ->
  detect_changes (Some previous_data) current_data d = (Ok [], d).
Proof.
  intros Heq.
  destruct previous_data as [|prev_0 prest]; [reflexivity|].
  assert (Hp : prev_0 :: prest <> []) by congruence.
  rewrite (detect_changes_closed current_data d Hp).
  set (p0 := nth 0 (prev_0 :: prest) []) in *.
  set (c0 := nth 0 current_data []) in *.
  set (n := Nat.min _ _).
  assert (Hlen : length p0 = length c0).
  { rewrite <- (length_map Py.strip p0), Heq. apply length_map. }
  assert (Hn : n <= length (skipn 2 p0)).
  { unfold n. rewrite !length_skipn. lia. }
  assert (Hres : resize n (skipn 2 p0) = firstn n (skipn 2 p0)).
  { unfold resize. replace (n - length (skipn 2 p0)) with 0 by lia.
    apply app_nil_r. }
  rewrite Hres, filter_changed_stripped_equal.
  2:{ rewrite <- !firstn_map, <- !skipn_map. now rewrite Heq. }
  assert (Htotal : Py.strip (cell (prev_0 :: prest) 0 1)
                   = Py.strip (cell current_data 0 1)).
  { pose proof (map_nth Py.strip p0 "" 1) as H1.
    pose proof (map_nth Py.strip c0 "" 1) as H2.
    rewrite Heq, H2 in H1. symmetry. exact H1. }
  unfold changed. rewrite Htotal, String.eqb_refl. cbn [negb].
  now rewrite andb_false_r.
Qed.

(** X9: when row 0 of the previous snapshot and row 0 of the current one
    have the same cells up to surrounding whitespace, no change is
    reported, whatever the labels are. *)
Theorem whitespace_differences_are_silent :
  forall (previous_data current_data : snapshot) (d : disk),
    map Py.strip (nth 0 previous_data []) = map Py.strip (nth 0 current_data []) ->
    detect_changes (Some previous_data) current_data d = (Ok [], d).
Proof. exact detect_changes_stripped_equal. Qed.

Lemma whitespace_differences_are_silent_witness :
  let previous := [["2024-01-01"; "100"; "10"; " 7"]; [""; "TYPE"; "WINGS"; "LAPS"]; []] in
  let current := [["2024-01-01 "; " 100"; "10 "; "7"]; [""; "TYPE"; "WINGS"; "LAPS"]; []] in
  detect_changes (Some previous) current (mkDisk None WriteOk)
  = (Ok [], mkDisk None WriteOk).
Proof.
  cbv zeta. apply whitespace_differences_are_silent. reflexivity.
Defined.

(** X10: when the current snapshot has the previous values followed by
    new columns, each with its label, the changes reported are exactly the
    new columns whose value is not blank, in order, each with the empty
    string as old value. *)
Theorem added_columns_reported :
  forall (date date' total a b : string) (prev_values extra labels labels' : list string)
         (prest crest : snapshot) (d : disk),
    length labels = length prev_values ->
    length labels' = length extra ->
    detect_changes (Some ((date :: total :: prev_values) :: prest))
      ((date' :: total :: prev_values ++ extra)
         :: (a :: b :: labels ++ labels') :: crest) d
    = (Ok (map (fun lc : string * string => (fst lc, "", snd lc))
             (filter (fun lc : string * string =>
                        negb (String.eqb "" (Py.strip (snd lc))))
                     (combine labels' extra))),
       d).
Proof.
  intros date date' total a b prev_values extra labels labels' prest crest d
         Hlabels Hextra.
  rewrite detect_changes_closed by congruence.
  cbn [nth skipn cell length Nat.ltb Nat.leb andb].
  unfold changed at 2. rewrite String.eqb_refl. cbn [negb].
  rewrite app_nil_r.
  assert (Hn : Nat.min (length (labels ++ labels')) (length (prev_values ++ extra))
               = length prev_values + length extra)
    by (rewrite !length_app; lia).
  rewrite Hn.
  rewrite (firstn_all2 (labels ++ labels')) by (rewrite length_app; lia).
  rewrite (firstn_all2 (prev_values ++ extra)) by (rewrite length_app; lia).
  rewrite resize_pad, zip3_app by (lia || reflexivity).
  rewrite filter_app, filter_changed_same. cbn [app].
  rewrite (filter_changed_padding labels' extra Hextra). reflexivity.
Qed.

Lemma added_columns_reported_witness :
  detect_changes
    (Some [["2024-01-01"; "100"; "10"]; [""; "TYPE"; "WINGS"]; []])
    [["2024-01-02"; "100"; "10"; " "; "4"];
     [""; "TYPE"; "WINGS"; "LAPS"; "BONES"]; []]
    (mkDisk None WriteOk)
  = (Ok [("BONES", "", "4")], mkDisk None WriteOk).
Proof.
  exact (@added_columns_reported "2024-01-01" "2024-01-02" "100" "" "TYPE"
           ["10"] [" "; "4"] ["WINGS"] ["LAPS"; "BONES"] [[]] [[]]
           (mkDisk None WriteOk) eq_refl eq_refl).
Defined.

(** X11: only the positions that have both a label and a current value are
    compared.  Values beyond the last label (in either snapshot) and labels
    beyond the last current value never produce a change. *)
Theorem unlabelled_cells_are_silent :
  forall (date date' total total' a b : string)
         (prev_values curr_values labels ptail ctail ltail : list string)
         (prest crest : snapshot) (d : disk),
    length prev_values = length labels ->
    length curr_values = length labels ->
    detect_changes (Some ((date :: total :: prev_values ++ ptail) :: prest))
      ((date' :: total' :: curr_values ++ ctail) :: (a :: b :: labels) :: crest) d
    = detect_changes (Some ((date :: total :: prev_values) :: prest))
        ((date' :: total' :: curr_values) :: (a :: b :: labels) :: crest) d
    /\ detect_changes (Some ((date :: total :: prev_values ++ ptail) :: prest))
         ((date' :: total' :: curr_values) :: (a :: b :: labels ++ ltail) :: crest) d
       = detect_changes (Some ((date :: total :: prev_values) :: prest))
           ((date' :: total' :: curr_values) :: (a :: b :: labels) :: crest) d.
Proof.
  intros date date' total total' a b prev_values curr_values labels
         ptail ctail ltail prest crest d Hprev Hcurr.
  rewrite !detect_changes_closed by congruence.
  cbn [nth skipn cell length Nat.ltb Nat.leb andb].
  assert (H1 : Nat.min (length labels) (length (curr_values ++ ctail))
               = length labels) by (rewrite length_app; lia).
  assert (H2 : Nat.min (length labels) (length curr_values) = length labels)
    by lia.
  assert (H3 : Nat.min (length (labels ++ ltail)) (length curr_values)
               = length labels) by (rewrite length_app; lia).
  rewrite H1, H2, H3.
  rewrite (firstn_all labels).
  rewrite (firstn_prefix curr_values ctail Hcurr).
  rewrite (firstn_prefix labels ltail eq_refl).
  rewrite (firstn_all2 curr_values) by lia.
  rewrite (resize_prefix prev_values ptail Hprev).
  rewrite (resize_same prev_values Hprev).
  split; reflexivity.
Qed.

Lemma unlabelled_cells_are_silent_witness :
  detect_changes
    (Some [["2024-01-01"; "100"; "10"; "7"]; [""; "TYPE"; "WINGS"]; []])
    [["2024-01-02"; "100"; "10"; "9"]; [""; "TYPE"; "WINGS"]; []]
    (mkDisk None WriteOk)
  = detect_changes
      (Some [["2024-01-01"; "100"; "10"]; [""; "TYPE"; "WINGS"]; []])
      [["2024-01-02"; "100"; "10"]; [""; "TYPE"; "WINGS"]; []]
      (mkDisk None WriteOk).
Proof.
  exact (proj1 (@unlabelled_cells_are_silent "2024-01-01" "2024-01-02"
                  "100" "100" "" "TYPE" ["10"] ["10"] ["WINGS"] ["7"] ["9"] []
                  [[""; "TYPE"; "WINGS"]; []] [[]] (mkDisk None WriteOk)
                  eq_refl eq_refl)).
Defined.

Lemma dot_is_no_digit (c : ascii) :
  Alert.isdigit_char c = true -> Ascii.eqb c "."%char = false.
Proof.
  intros Hc. destruct (Ascii.eqb_spec c "."%char) as [-> | _]; [|reflexivity].
  discriminate Hc.
Qed.

Lemma replace_first_dot_digits (s : string) :
  Alert.all_digits s = true -> Alert.replace_first_dot s = s.
Proof.
  induction s as [|c s IH]; [reflexivity|].
  cbn [Alert.all_digits Alert.replace_first_dot]. intros H.
  apply andb_true_iff in H. destruct H as [Hc Hs].
  now rewrite (dot_is_no_digit c Hc), IH.
Qed.

Lemma replace_first_dot_app (a b : string) :
  Alert.all_digits a = true ->
  Alert.replace_first_dot (a ++ String "."%char b) = (a ++ b)%string.
Proof.
  induction a as [|c a IH]; [reflexivity|].
  cbn [Alert.all_digits Alert.replace_first_dot String.append]. intros H.
  apply andb_true_iff in H. destruct H as [Hc Ha].
  now rewrite (dot_is_no_digit c Hc), IH.
Qed.

Lemma all_digits_app (a b : string) :
  Alert.all_digits (a ++ b) = Alert.all_digits a && Alert.all_digits b.
Proof.
  induction a as [|c a IH]; [reflexivity|].
  cbn [Alert.all_digits String.append]. now rewrite IH, andb_assoc.
Qed.

Lemma isdigit_all_digits (s : string) :
  Alert.isdigit s = true <-> Alert.all_digits s = true /\ s <> "".
Proof.
  destruct s as [|c s]; cbn [Alert.isdigit].
  - split; [discriminate | intros [_ H]; congruence].
  - split; [intros H; split; [exact H | discriminate] | intros [H _]; exact H].
Qed.

Lemma replace_first_dot_split (s : string) :
  Alert.all_digits (Alert.replace_first_dot s) = true ->
  exists a b : string,
    Alert.all_digits a = true /\ Alert.all_digits b = true
    /\ Alert.replace_first_dot s = (a ++ b)%string
    /\ (s = (a ++ b)%string \/ s = (a ++ String "."%char b)%string).
Proof.
  induction s as [|c s IH]; cbn [Alert.replace_first_dot].
  - intros _. exists "", "". repeat split; now left.
  - destruct (Ascii.eqb_spec c "."%char) as [-> | Hc].
    + intros Hs. exists "", s. repeat split; [exact Hs | now right].
    + cbn [Alert.all_digits]. intros H.
      apply andb_true_iff in H. destruct H as [Hd Hs].
      destruct (IH Hs) as (a & b & Ha & Hb & Hr & Hsplit).
      exists (String c a), b. cbn [Alert.all_digits String.append].
      rewrite Hd, Ha, Hr. repeat split; [exact Hb|].
      destruct Hsplit as [-> | ->]; [now left | now right].
Qed.

(** X12: the alert formats a value as a weight in kg exactly when its
    stripped text is a non-empty run of digit characters with at most one
    dot in it or at either end.  A sign, a comma, an exponent or a second
    dot sends the value to the message unchanged. *)
Theorem is_weight_characterised :
  forall val : string,
    Alert.is_weight val = true
    <-> exists a b : string,
          Alert.all_digits a = true /\ Alert.all_digits b = true
          /\ (a ++ b)%string <> ""
          /\ (Py.strip val = (a ++ b)%string
              \/ Py.strip val = (a ++ String "."%char b)%string).
Proof.
  intros val. unfold Alert.is_weight. rewrite isdigit_all_digits. split.
  - intros [Hdigits Hne].
    destruct (replace_first_dot_split _ Hdigits) as (a & b & Ha & Hb & Hr & Hs).
    exists a, b. rewrite Hr in Hne. auto.
  - intros (a & b & Ha & Hb & Hne & [Hs | Hs]); rewrite Hs.
    + rewrite replace_first_dot_digits
        by (rewrite all_digits_app, Ha, Hb; reflexivity).
      split; [rewrite all_digits_app, Ha, Hb; reflexivity | exact Hne].
    + rewrite (replace_first_dot_app a b Ha).
      split; [rewrite all_digits_app, Ha, Hb; reflexivity | exact Hne].
Qed.

Lemma is_weight_examples :
  Alert.is_weight " 12.50 " = true
  /\ Alert.is_weight "7." = true
  /\ Alert.is_weight "-3" = false
  /\ Alert.is_weight "1,000" = false
  /\ Alert.is_weight "1.2.3" = false
  /\ Alert.is_weight "." = false
  /\ Alert.is_weight "" = false.
Proof. repeat split. Qed.

(** *** One run of [main] *)

Lemma fetches_rows (env : environment) (webhook_url : string) (data : snapshot) :
  fetches env webhook_url data -> 3 <= length data.
Proof.
  intros (_ & _ & _ & Hget).
  unfold Sheets.get_sheet_data, Sheets.get_sheet_data_try in Hget.
  destruct (sheet env) as [| |[v|]]; try discriminate.
  destruct (Py.falsy v || (length v <? 3)) eqn:Hv; [discriminate|].
  injection Hget as <-.
  apply orb_false_iff in Hv. destruct Hv as [_ Hv]. now apply Nat.ltb_ge in Hv.
Qed.

(** Past the fetch, [main_try] is the baseline save or the comparison. *)
Lemma main_try_fetched (send_space_alert : sender) (env : environment)
    (webhook_url : string) (data : snapshot) (d : disk) :
  fetches env webhook_url data ->
  main_try send_space_alert env d
  = match load_previous_state d with
    | None =>
        match save_current_state data d with
        | (Ok _, d') => (Returned, d', [])
        | (Raise e, d') => (Raised (Called e), d', [])
        end
    | Some previous_data =>
        match check_for_changes send_space_alert webhook_url
                previous_data data d with
        | (Ok _, d', sent) => (Returned, d', sent)
        | (Raise e, d', sent) => (Raised (Called e), d', sent)
        end
    end.
Proof.
  intros (Hurl & Hne & Hservice & Hget). unfold main_try.
  rewrite Hurl, Hservice, Hget. cbn [negb].
  destruct webhook_url as [|c url]; [congruence|].
  destruct (load_previous_state d) as [previous|] eqn:Hload; [|reflexivity].
  destruct previous as [|prev_0 prest]; [|reflexivity].
  unfold load_previous_state in Hload.
  destruct (previous_state_file d) as [[data'|]|]; try discriminate.
  destruct data' as [|row_0 rest]; [discriminate Hload|].
  destruct (Py.falsy (row_0 :: rest) || (length (row_0 :: rest) <? 3));
    discriminate Hload.
Qed.

(** The calls of [send_space_alert] a comparison makes, whatever the disk
    does afterwards. *)
Lemma check_for_changes_sent (send_space_alert : sender) (webhook_url : string)
    (previous_data data : snapshot) (d : disk) (changes : list Change) :
  detect_changes (Some previous_data) data d = (Ok changes, d) ->
  snd (check_for_changes send_space_alert webhook_url previous_data data d)
  = if Py.falsy changes then [] else [(changes, data)].
Proof.
  intros Hdetect. unfold check_for_changes, check_for_changes_try.
  rewrite Hdetect.
  destruct changes as [|c changes]; cbn [Py.falsy negb].
  - destruct (save_current_state data d) as [[u|e] d2]; [reflexivity|].
    destruct (save_current_state data d2) as [r d3]; reflexivity.
  - destruct (send_space_alert webhook_url (c :: changes) data) as [[|]|e].
    + destruct (save_current_state data d) as [[u|e] d2]; [reflexivity|].
      destruct (save_current_state data d2) as [r d3]; reflexivity.
    + destruct (save_current_state data d) as [[u|e] d2]; [reflexivity|].
      destruct (save_current_state data d2) as [r d3]; reflexivity.
    + destruct (save_current_state data d) as [r d3]; reflexivity.
Qed.

(** On a disk that accepts writes the comparison always ends with the
    current data stored. *)
Lemma check_for_changes_saves (send_space_alert : sender) (webhook_url : string)
    (previous_data data : snapshot) (d : disk) :
  3 <= length data -> writes d = WriteOk ->
  fst (check_for_changes send_space_alert webhook_url previous_data data d)
  = (Ok tt, mkDisk (Some (Pickled data)) WriteOk).
Proof.
  intros Hlen Hw. unfold check_for_changes, check_for_changes_try.
  destruct (detect_changes_returns (Some previous_data) data d)
    as [changes Hdetect].
  rewrite Hdetect, (@save_current_state_ok data d Hlen Hw).
  destruct changes as [|c changes]; cbn [Py.falsy negb]; [reflexivity|].
  destruct (send_space_alert webhook_url (c :: changes) data) as [[|]|e];
    try reflexivity.
  now rewrite (@save_current_state_ok data d Hlen Hw).
Qed.

(** On a disk that refuses the write the comparison ends with the
    [APIError] of [save_current_state] and the disk as that save leaves
    it, however many times the save was tried. *)
Lemma check_for_changes_write_fails (send_space_alert : sender)
    (webhook_url : string) (previous_data data : snapshot) (d : disk) :
  3 <= length data -> writes d <> WriteOk ->
  fst (check_for_changes send_space_alert webhook_url previous_data data d)
  = (Raise APIError, snd (save_current_state data d))
  /\ save_current_state data d
     = (Raise APIError, snd (save_current_state data d)).
Proof.
  intros Hlen Hw. unfold check_for_changes, check_for_changes_try.
  destruct (detect_changes_returns (Some previous_data) data d)
    as [changes Hdetect].
  assert (Hvalid : Py.falsy data || (length data <? 3) = false).
  { apply orb_false_iff. split; [apply falsy_length; lia | apply Nat.ltb_ge; exact Hlen]. }
  assert (Hsave : exists d',
             save_current_state data d = (Raise APIError, d')
             /\ save_current_state data d' = (Raise APIError, d')).
  { unfold save_current_state. rewrite Hvalid.
    destruct d as [f [| |]]; cbn [writes] in *; [congruence| |];
      eexists; split; reflexivity. }
  destruct Hsave as (d' & Hsave & Hagain).
  rewrite Hdetect, Hsave. cbn [snd]. split; [|reflexivity].
  destruct changes as [|c changes]; cbn [Py.falsy negb].
  - now rewrite Hagain.
  - destruct (send_space_alert webhook_url (c :: changes) data) as [[|]|e].
    + now rewrite Hagain.
    + now rewrite Hagain.
    + now rewrite Hsave.
Qed.

Lemma main_fetched_saves (send_space_alert : sender) (env : environment)
    (webhook_url : string) (data : snapshot) (d : disk) :
  fetches env webhook_url data ->
  writes d = WriteOk ->
  fst (main send_space_alert env d)
  = (Finished, mkDisk (Some (Pickled data)) WriteOk).
Proof.
  intros Hfetch Hw.
  pose proof (fetches_rows Hfetch) as Hlen.
  unfold main. rewrite (main_try_fetched send_space_alert d Hfetch).
  destruct (load_previous_state d) as [previous|].
  - pose proof (@check_for_changes_saves send_space_alert webhook_url
                  previous data d Hlen Hw) as Hsaves.
    destruct (check_for_changes send_space_alert webhook_url previous data d)
      as [[r d'] sent].
    cbn [fst] in Hsaves. injection Hsaves as -> ->. reflexivity.
  - now rewrite (@save_current_state_ok data d Hlen Hw).
Qed.

Lemma main_fetched_sent (send_space_alert : sender) (env : environment)
    (webhook_url : string) (data previous_data : snapshot) (d : disk)
    (changes : list Change) :
  fetches env webhook_url data ->
  load_previous_state d = Some previous_data ->
  detect_changes (Some previous_data) data d = (Ok changes, d) ->
  snd (main send_space_alert env d)
  = if Py.falsy changes then [] else [(changes, data)].
Proof.
  intros Hfetch Hload Hdetect.
  pose proof (@check_for_changes_sent send_space_alert webhook_url
                previous_data data d changes Hdetect) as Hsent.
  unfold main. rewrite (main_try_fetched send_space_alert d Hfetch), Hload.
  destruct (check_for_changes send_space_alert webhook_url previous_data data d)
    as [[[u|[| |]] d'] sent]; exact Hsent.
Qed.

(** X13: whenever the sheet was fetched and the disk accepts the write, the
    run finishes normally and the state file holds the fetched data
    afterwards: on a first run, with or without changes, and whether
    [send_space_alert] returned [True], returned [False] or raised. *)
Theorem main_saves_current_state :
  forall (send_space_alert : sender) (env : environment) (webhook_url : string)
         (data : snapshot) (d : disk),
    fetches env webhook_url data ->
    writes d = WriteOk ->
    fst (main send_space_alert env d)
    = (Finished, mkDisk (Some (Pickled data)) WriteOk)
    /\ load_previous_state (snd (fst (main send_space_alert env d))) = Some data.
Proof.
  intros send_space_alert env webhook_url data d Hfetch Hw.
  pose proof (@main_fetched_saves send_space_alert env webhook_url data d
                Hfetch Hw) as Hmain.
  split; [exact Hmain|].
  rewrite Hmain. cbn [snd]. apply load_saved. exact (fetches_rows Hfetch).
Qed.

(** X14: a run that finds no usable previous state (no file, an unreadable
    file or a short pickle) never calls [send_space_alert]; it only saves
    the fetched data as the baseline. *)
Theorem first_run_is_silent :
  forall (send_space_alert : sender) (env : environment) (webhook_url : string)
         (data : snapshot) (d : disk),
    fetches env webhook_url data ->
    load_previous_state d = None ->
    snd (main send_space_alert env d) = []
    /\ snd (fst (main send_space_alert env d))
       = snd (save_current_state data d).
Proof.
  intros send_space_alert env webhook_url data d Hfetch Hload.
  unfold main. rewrite (main_try_fetched send_space_alert d Hfetch), Hload.
  destruct (save_current_state data d) as [[u|[| |]] d']; split; reflexivity.
Qed.

(** X15: a run that finds a previous state calls [send_space_alert] once,
    with the detected changes and the fetched data, when [detect_changes]
    reports at least one change, and not at all when it reports none;
    this does not depend on what the disk does. *)
Theorem alert_sent_exactly_on_changes :
  forall (send_space_alert : sender) (env : environment) (webhook_url : string)
         (data previous_data : snapshot) (d : disk),
    fetches env webhook_url data ->
    load_previous_state d = Some previous_data ->
    exists changes,
      detect_changes (Some previous_data) data d = (Ok changes, d)
      /\ snd (main send_space_alert env d)
         = if Py.falsy changes then [] else [(changes, data)].
Proof.
  intros send_space_alert env webhook_url data previous_data d Hfetch Hload.
  destruct (detect_changes_returns (Some previous_data) data d)
    as [changes Hdetect].
  exists changes. split; [exact Hdetect|].
  exact (@main_fetched_sent send_space_alert env webhook_url data
           previous_data d changes Hfetch Hload Hdetect).
Qed.

(** X16: a run that does not get the sheet changes nothing and alerts
    nobody.  A missing or empty SPACE_WEBHOOK_URL ends in the handler for
    unexpected errors; a failure of [get_service] or of [get_sheet_data]
    ends in the handler for [APIError]. *)
Theorem failed_fetch_changes_nothing :
  forall (send_space_alert : sender) (env : environment) (d : disk),
    ((SPACE_WEBHOOK_URL env = None \/ SPACE_WEBHOOK_URL env = Some "") ->
     main send_space_alert env d = (UnexpectedErrorLogged, d, []))
    /\ (forall webhook_url : string,
           SPACE_WEBHOOK_URL env = Some webhook_url -> webhook_url <> "" ->
           (service_account env = false
            \/ exists message, Sheets.get_sheet_data (sheet env) = inl message) ->
           main send_space_alert env d = (APIErrorLogged, d, [])).
Proof.
  intros send_space_alert env d. unfold main, main_try. split.
  - intros [-> | ->]; reflexivity.
  - intros webhook_url -> Hne Hfail.
    destruct webhook_url as [|c url]; [congruence|].
    destruct (service_account env); cbn [negb]; [|reflexivity].
    destruct Hfail as [Hfalse | [message ->]]; [discriminate | reflexivity].
Qed.

Lemma failed_fetch_changes_nothing_witness :
  let previous := [["2024-01-01"; "100"; "10"]; [""; "TYPE"; "WINGS"]; []] in
  let d := mkDisk (Some (Pickled previous)) WriteOk in
  let send := fun (_ : string) (_ : list Change) (_ : snapshot) => Ok true in
  main send (mkEnv None true (Sheets.Returns (Some previous))) d
  = (UnexpectedErrorLogged, d, [])
  /\ main send (mkEnv (Some "https://chat.example/hook") true
                  (Sheets.Returns (Some [["2024-01-02"; "120"; "15"]]))) d
     = (APIErrorLogged, d, []).
Proof.
  cbv zeta.
  pose (previous := [["2024-01-01"; "100"; "10"]; [""; "TYPE"; "WINGS"]; []]).
  pose (d := mkDisk (Some (Pickled previous)) WriteOk).
  pose (send := fun (_ : string) (_ : list Change) (_ : snapshot) => Ok true).
  pose (env1 := mkEnv None true (Sheets.Returns (Some previous))).
  pose (env2 := mkEnv (Some "https://chat.example/hook") true
                  (Sheets.Returns (Some [["2024-01-02"; "120"; "15"]]))).
  assert (Hne : "https://chat.example/hook" <> "") by discriminate.
  split.
  - exact (proj1 (failed_fetch_changes_nothing send env1 d)
             (or_introl eq_refl)).
  - exact (proj2 (failed_fetch_changes_nothing send env2 d)
             "https://chat.example/hook" eq_refl Hne
             (or_intror (ex_intro _ _ eq_refl))).
Defined.

(** X17: after a run that fetched the sheet on a disk that accepts the
    write, a second run that fetches the same data calls
    [send_space_alert] not at all, whatever the first call did: an alert
    that was not delivered is not repeated. *)
Theorem second_run_is_silent :
  forall (send_space_alert send_space_alert' : sender)
         (env env' : environment) (webhook_url webhook_url' : string)
         (data : snapshot) (d : disk),
    fetches env webhook_url data ->
    fetches env' webhook_url' data ->
    writes d = WriteOk ->
    snd (main send_space_alert' env'
           (snd (fst (main send_space_alert env d))))
    = [].
Proof.
  intros send_space_alert send_space_alert' env env' webhook_url webhook_url'
         data d Hfetch Hfetch' Hw.
  rewrite (@main_fetched_saves send_space_alert env webhook_url data d Hfetch Hw).
  cbn [snd].
  pose proof (fetches_rows Hfetch) as Hlen.
  exact (@main_fetched_sent send_space_alert' env' webhook_url' data data
           (mkDisk (Some (Pickled data)) WriteOk) []
           Hfetch' (@load_saved data WriteOk Hlen)
           (@detect_changes_stripped_equal data data _ eq_refl)).
Qed.

(** X18: when the sheet was fetched but the disk refuses the write, the
    run ends in the handler for [APIError].  If the file cannot be opened
    the disk is left as it was, so the next run compares against the same
    previous state; if [pickle.dump] fails, the next run finds no previous
    state. *)
Theorem failed_write_ends_in_api_error :
  forall (send_space_alert : sender) (env : environment) (webhook_url : string)
         (data : snapshot) (d : disk),
    fetches env webhook_url data ->
    (writes d = OpenFails ->
     fst (main send_space_alert env d) = (APIErrorLogged, d))
    /\ (writes d = DumpFails ->
        fst (fst (main send_space_alert env d)) = APIErrorLogged
        /\ load_previous_state (snd (fst (main send_space_alert env d))) = None).
Proof.
  intros send_space_alert env webhook_url data d Hfetch.
  pose proof (fetches_rows Hfetch) as Hlen.
  assert (Hmain : writes d <> WriteOk ->
                  fst (main send_space_alert env d)
                  = (APIErrorLogged, snd (save_current_state data d))).
  { intros Hw. unfold main.
    rewrite (main_try_fetched send_space_alert d Hfetch).
    destruct (load_previous_state d) as [previous|].
    - destruct (@check_for_changes_write_fails send_space_alert webhook_url
                  previous data d Hlen Hw) as [Hfails _].
      destruct (check_for_changes send_space_alert webhook_url previous data d)
        as [[r d'] sent].
      cbn [fst] in Hfails. injection Hfails as -> ->. reflexivity.
    - destruct (@check_for_changes_write_fails send_space_alert webhook_url
                  [] data d Hlen Hw) as [_ Hsave].
      rewrite Hsave. reflexivity. }
  assert (Hvalid : Py.falsy data || (length data <? 3) = false).
  { apply orb_false_iff. split; [apply falsy_length; lia | apply Nat.ltb_ge; exact Hlen]. }
  split; intros Hw.
  - rewrite Hmain by congruence.
    unfold save_current_state. now rewrite Hvalid, Hw.
  - rewrite Hmain by congruence.
    unfold save_current_state. rewrite Hvalid, Hw. split; reflexivity.
Qed.

(** The sheet and the environment used in the examples below. *)
Lemma example_fetches :
  fetches (mkEnv (Some "https://chat.example/hook") true
             (Sheets.Returns
                (Some [["2024-01-02"; "120"; "15"]; [""; "TYPE"; "WINGS"]; []])))
    "https://chat.example/hook"
    [["2024-01-02"; "120"; "15"]; [""; "TYPE"; "WINGS"]; []].
Proof. unfold fetches. repeat split. discriminate. Defined.

Lemma main_saves_current_state_witness :
  let data := [["2024-01-02"; "120"; "15"]; [""; "TYPE"; "WINGS"]; []] in
  let previous := [["2024-01-01"; "100"; "10"]; [""; "TYPE"; "WINGS"]; []] in
  let env := mkEnv (Some "https://chat.example/hook") true
               (Sheets.Returns (Some data)) in
  let refuses := fun (_ : string) (_ : list Change) (_ : snapshot) =>
                   Ok false in
  load_previous_state
    (snd (fst (main refuses env (mkDisk (Some (Pickled previous)) WriteOk))))
  = Some data.
Proof.
  cbv zeta.
  exact (proj2 (@main_saves_current_state
                  (fun _ _ _ => Ok false) _ _ _
                  (mkDisk (Some (Pickled
                     [["2024-01-01"; "100"; "10"]; [""; "TYPE"; "WINGS"]; []]))
                     WriteOk)
                  example_fetches eq_refl)).
Defined.

Lemma first_run_is_silent_witness :
  let data := [["2024-01-02"; "120"; "15"]; [""; "TYPE"; "WINGS"]; []] in
  let env := mkEnv (Some "https://chat.example/hook") true
               (Sheets.Returns (Some data)) in
  let delivers := fun (_ : string) (_ : list Change) (_ : snapshot) =>
                    Ok true in
  snd (main delivers env (mkDisk (Some Corrupt) WriteOk)) = [].
Proof.
  cbv zeta.
  exact (proj1 (@first_run_is_silent
                  (fun _ _ _ => Ok true) _ _ _
                  (mkDisk (Some Corrupt) WriteOk)
                  example_fetches eq_refl)).
Defined.

Lemma alert_sent_exactly_on_changes_witness :
  let data := [["2024-01-02"; "120"; "15"]; [""; "TYPE"; "WINGS"]; []] in
  let previous := [["2024-01-01"; "100"; "10"]; [""; "TYPE"; "WINGS"]; []] in
  let env := mkEnv (Some "https://chat.example/hook") true
               (Sheets.Returns (Some data)) in
  let delivers := fun (_ : string) (_ : list Change) (_ : snapshot) =>
                    Ok true in
  let d := mkDisk (Some (Pickled previous)) OpenFails in
  exists changes,
    detect_changes (Some previous) data d = (Ok changes, d)
    /\ snd (main delivers env d)
       = if Py.falsy changes then [] else [(changes, data)].
Proof.
  cbv zeta.
  exact (@alert_sent_exactly_on_changes
           (fun _ _ _ => Ok true) _ _ _
           [["2024-01-01"; "100"; "10"]; [""; "TYPE"; "WINGS"]; []]
           (mkDisk (Some (Pickled
              [["2024-01-01"; "100"; "10"]; [""; "TYPE"; "WINGS"]; []]))
              OpenFails)
           example_fetches eq_refl).
Defined.

Lemma second_run_is_silent_witness :
  let data := [["2024-01-02"; "120"; "15"]; [""; "TYPE"; "WINGS"]; []] in
  let previous := [["2024-01-01"; "100"; "10"]; [""; "TYPE"; "WINGS"]; []] in
  let env := mkEnv (Some "https://chat.example/hook") true
               (Sheets.Returns (Some data)) in
  let refuses := fun (_ : string) (_ : list Change) (_ : snapshot) =>
                   Ok false in
  snd (main refuses env
         (snd (fst (main refuses env
                      (mkDisk (Some (Pickled previous)) WriteOk)))))
  = [].
Proof.
  cbv zeta.
  exact (@second_run_is_silent
           (fun _ _ _ => Ok false) (fun _ _ _ => Ok false) _ _ _ _ _
           (mkDisk (Some (Pickled
              [["2024-01-01"; "100"; "10"]; [""; "TYPE"; "WINGS"]; []]))
              WriteOk)
           example_fetches example_fetches eq_refl).
Defined.

Lemma failed_write_ends_in_api_error_witness :
  let data := [["2024-01-02"; "120"; "15"]; [""; "TYPE"; "WINGS"]; []] in
  let previous := [["2024-01-01"; "100"; "10"]; [""; "TYPE"; "WINGS"]; []] in
  let env := mkEnv (Some "https://chat.example/hook") true
               (Sheets.Returns (Some data)) in
  let delivers := fun (_ : string) (_ : list Change) (_ : snapshot) =>
                    Ok true in
  fst (main delivers env (mkDisk (Some (Pickled previous)) OpenFails))
  = (APIErrorLogged, mkDisk (Some (Pickled previous)) OpenFails)
  /\ load_previous_state
       (snd (fst (main delivers env
                    (mkDisk (Some (Pickled previous)) DumpFails))))
     = None.
Proof.
  cbv zeta. split.
  - exact (proj1 (@failed_write_ends_in_api_error
                    (fun _ _ _ => Ok true) _ _ _
                    (mkDisk (Some (Pickled
                       [["2024-01-01"; "100"; "10"]; [""; "TYPE"; "WINGS"]; []]))
                       OpenFails)
                    example_fetches) eq_refl).
  - exact (proj2 (proj2 (@failed_write_ends_in_api_error
                    (fun _ _ _ => Ok true) _ _ _
                    (mkDisk (Some (Pickled
                       [["2024-01-01"; "100"; "10"]; [""; "TYPE"; "WINGS"]; []]))
                       DumpFails)
                    example_fetches) eq_refl)).
Defined.

(** *** Short snapshots and failed comparisons *)




Lemma getitem_cells (previous_data : snapshot) (r : nat) :
  Py.getitem (map Cells previous_data) r
  = match Py.getitem previous_data r with
    | Ok cells => Ok (Cells cells)
    | Raise e => Raise e
    end.
Proof.
  unfold Py.getitem. rewrite nth_error_map.
  destruct (nth_error previous_data r); reflexivity.
Qed.

Lemma stored_cells_from_cells (previous_data : snapshot) (r : nat) :
  stored_cells_from (map Cells previous_data) r = cells_from previous_data r.
Proof.
  unfold stored_cells_from, cells_from. rewrite length_map, getitem_cells.
  destruct (r <? length previous_data); [|reflexivity].
  destruct (Py.getitem previous_data r) as [cells|e]; [|reflexivity].
  cbn [bind len from_col2]. destruct (2 <? length cells); reflexivity.
Qed.

Lemma stored_row_length_cells (previous_data : snapshot) (r : nat) :
  stored_row_length (map Cells previous_data) r = row_length previous_data r.
Proof.
  unfold stored_row_length, row_length. rewrite length_map, getitem_cells.
  destruct (r <? length previous_data); [|reflexivity].
  destruct (Py.getitem previous_data r) as [cells|e]; reflexivity.
Qed.

Lemma total_change_stored_cells (previous_data current_data : snapshot) :
  total_change_stored (map Cells previous_data) current_data
  = total_change previous_data current_data.
Proof.
  unfold total_change_stored, total_change. rewrite getitem_cells.
  destruct (Py.getitem previous_data 0) as [cells|e]; reflexivity.
Qed.

(** On a previous state made of rows of cells the two models are the same
    function. *)
Lemma detect_changes_stored_cells
    (previous_data current_data : snapshot) (d : disk) :
  detect_changes_stored (Some (map Cells previous_data)) current_data d
  = detect_changes (Some previous_data) current_data d.
Proof.
  unfold detect_changes_stored, detect_changes.
  assert (Htry : detect_changes_try_stored (map Cells previous_data) current_data
                 = detect_changes_try previous_data current_data).
  { unfold detect_changes_try_stored, detect_changes_try,
      label_changes_stored, label_changes, aligned_stored, aligned.
    now rewrite stored_cells_from_cells, stored_row_length_cells,
      total_change_stored_cells. }
  rewrite Htry. destruct previous_data; reflexivity.
Qed.

(** A first entry without a length stops the comparison at line 190. *)
Lemma detect_changes_try_stored_not_sized (rest : stored) (current_data : snapshot) :
  detect_changes_try_stored (NotSized :: rest) current_data = Raise TypeError.
Proof.
  unfold detect_changes_try_stored, label_changes_stored, aligned_stored.
  rewrite cells_from_total. reflexivity.
Qed.

Lemma save_current_state_result (state : snapshot) (d : disk) :
  fst (save_current_state state d) = Ok tt
  \/ fst (save_current_state state d) = Raise APIError.
Proof.
  unfold save_current_state.
  destruct (Py.falsy state || (length state <? 3)); [now left|].
  destruct (writes d); [now left | now right | now right].
Qed.

Lemma detect_changes_stored_result
    (previous_data : option stored) (current_data : snapshot) (d : disk) :
  (exists changes,
      fst (detect_changes_stored previous_data current_data d) = Ok changes)
  \/ fst (detect_changes_stored previous_data current_data d) = Raise APIError.
Proof.
  unfold detect_changes_stored.
  destruct previous_data as [previous|]; [|left; now exists []].
  destruct (Py.falsy previous); [left; now exists []|].
  destruct (detect_changes_try_stored previous current_data) as [changes|e];
    [left; now exists changes|].
  unfold detect_changes_except.
  destruct (save_current_state_result current_data d) as [H | H];
    destruct (save_current_state current_data d) as [[u|e'] d'];
    cbn [fst] in *; try discriminate.
  - left. now exists [].
  - right. congruence.
Qed.

(** C4, amended: an exception raised inside the comparison is caught.  The
    handler saves the current snapshot, which is stored whenever it has at
    least 3 rows (as every fetched snapshot has) and the write succeeds,
    and [detect_changes] then returns the empty list; a current snapshot
    of fewer than 3 rows is skipped by the save.  If the save fails, its
    [APIError] leaves [detect_changes]; no other exception does, and the
    comparison step of [main] ends normally or with that [APIError], which
    its [except APIError] clause handles.  The comparison does raise when
    the first entry of the previous state has no length, and on rows of
    cells this is the [detect_changes] of the other theorems. *)
Theorem comparison_failure_handled :
  (forall (previous_data current_data : snapshot) (d : disk),
      detect_changes_stored (Some (map Cells previous_data)) current_data d
      = detect_changes (Some previous_data) current_data d)
  /\ (forall (rest : stored) (current_data : snapshot),
         detect_changes_try_stored (NotSized :: rest) current_data
         = Raise TypeError)
  /\ (forall (previous_data : stored) (current_data : snapshot) (d : disk)
             (e : exn),
         previous_data <> [] ->
         detect_changes_try_stored previous_data current_data = Raise e ->
         (3 <= length current_data -> writes d = WriteOk ->
          detect_changes_stored (Some previous_data) current_data d
          = (Ok [], mkDisk (Some (Pickled current_data)) WriteOk)
          /\ load_previous_state
               (snd (detect_changes_stored (Some previous_data) current_data d))
             = Some current_data)
         /\ (length current_data < 3 ->
             detect_changes_stored (Some previous_data) current_data d
             = (Ok [], d))
         /\ (3 <= length current_data -> writes d <> WriteOk ->
             fst (detect_changes_stored (Some previous_data) current_data d)
             = Raise APIError))
  /\ (forall (previous_data : option stored) (current_data : snapshot)
             (d : disk),
         (exists changes,
             fst (detect_changes_stored previous_data current_data d)
             = Ok changes)
         \/ fst (detect_changes_stored previous_data current_data d)
            = Raise APIError)
  /\ (forall (send_space_alert : sender) (webhook_url : string)
             (previous_data : stored) (current_data : snapshot) (d : disk),
         fst (fst (check_for_changes_stored send_space_alert webhook_url
                     previous_data current_data d)) = Ok tt
         \/ fst (fst (check_for_changes_stored send_space_alert webhook_url
                        previous_data current_data d)) = Raise APIError).
Proof.
  split; [exact detect_changes_stored_cells|].
  split; [exact detect_changes_try_stored_not_sized|].
  split; [|split; [exact detect_changes_stored_result|]].
  - intros previous_data current_data d e Hne Htry.
    assert (Hhandler : detect_changes_stored (Some previous_data) current_data d
                       = detect_changes_except current_data d).
    { unfold detect_changes_stored. rewrite Htry.
      destruct previous_data; [congruence | reflexivity]. }
    rewrite Hhandler. unfold detect_changes_except.
    split; [|split].
    + intros Hlen Hw.
      rewrite (@save_current_state_ok current_data d Hlen Hw).
      split; [reflexivity|]. cbn [snd]. apply load_saved. exact Hlen.
    + intros Hlen.
      now rewrite (proj1 (proj2 (save_current_state_cases current_data d)) Hlen).
    + intros Hlen Hw.
      pose proof (proj2 (proj2 (save_current_state_cases current_data d)) Hlen Hw)
        as Hsave.
      destruct (save_current_state current_data d) as [[u|e'] d'];
        cbn [fst] in *; [discriminate Hsave | congruence].
  - intros send_space_alert webhook_url previous_data current_data d.
    unfold check_for_changes_stored, check_for_changes_try_stored.
    assert (Hsave : forall d0 (sent : list attempt),
               fst (fst (let (r, d2) := save_current_state current_data d0 in
                         (r, d2, sent))) = Ok tt
               \/ fst (fst (let (r, d2) := save_current_state current_data d0 in
                            (r, d2, sent))) = Raise APIError).
    { intros d0 sent.
      destruct (save_current_state_result current_data d0) as [H | H];
        destruct (save_current_state current_data d0) as [r d2];
        cbn [fst] in *; [now left | now right]. }
    assert (Hretry : forall d0 (sent : list attempt),
               fst (fst (match (let (r, d2) := save_current_state current_data d0 in
                                (r, d2, sent)) with
                         | (Ok u, d', sent') => (Ok u, d', sent')
                         | (Raise _, d', sent') =>
                             let (r, d'') := save_current_state current_data d' in
                             (r, d'', sent')
                         end)) = Ok tt
               \/ fst (fst (match (let (r, d2) := save_current_state current_data d0 in
                                   (r, d2, sent)) with
                            | (Ok u, d', sent') => (Ok u, d', sent')
                            | (Raise _, d', sent') =>
                                let (r, d'') := save_current_state current_data d' in
                                (r, d'', sent')
                            end)) = Raise APIError).
    { intros d0 sent.
      destruct (save_current_state current_data d0) as [[[]|e0] d2].
      - now left.
      - apply Hsave. }
    destruct (detect_changes_stored (Some previous_data) current_data d)
      as [[changes|e] d1].
    + destruct changes as [|c changes]; cbn [Py.falsy negb].
      * apply Hretry.
      * destruct (send_space_alert webhook_url (c :: changes) current_data)
          as [[|]|e]; [apply Hretry | apply Hretry | apply Hsave].
    + apply Hsave.
Qed.

Lemma comparison_failure_handled_witness :
  let previous := [NotSized; Cells []; Cells []] in
  let current := [["2024-01-02"; "120"; "15"]; [""; "TYPE"; "WINGS"]; []] in
  detect_changes_try_stored previous current = Raise TypeError
  /\ (detect_changes_stored (Some previous) current (mkDisk None WriteOk)
      = (Ok [], mkDisk (Some (Pickled current)) WriteOk)
      /\ load_previous_state
           (snd (detect_changes_stored (Some previous) current
                   (mkDisk None WriteOk)))
         = Some current)
  /\ detect_changes_stored (Some previous) [] (mkDisk None WriteOk)
     = (Ok [], mkDisk None WriteOk)
  /\ fst (detect_changes_stored (Some previous) current (mkDisk None DumpFails))
     = Raise APIError.
Proof.
  cbv zeta.
  pose (previous := [NotSized; Cells []; Cells []]).
  pose (current := [["2024-01-02"; "120"; "15"]; [""; "TYPE"; "WINGS"]; []]).
  assert (Hne : previous <> []) by discriminate.
  assert (H3 : 3 <= 3) by lia.
  assert (H0 : 0 < 3) by lia.
  assert (Hdump : DumpFails <> WriteOk) by discriminate.
  pose proof (proj1 (proj2 comparison_failure_handled)
                [Cells []; Cells []] current) as Htry.
  pose proof (proj1 (proj2 comparison_failure_handled)
                [Cells []; Cells []] []) as Htry0.
  split; [exact Htry|].
  split; [|split].
  - exact (proj1 (proj1 (proj2 (proj2 comparison_failure_handled))
                    previous current (mkDisk None WriteOk) TypeError Hne Htry)
             H3 eq_refl).
  - exact (proj1 (proj2 (proj1 (proj2 (proj2 comparison_failure_handled))
                    previous [] (mkDisk None WriteOk) TypeError Hne Htry0))
             H0).
  - exact (proj2 (proj2 (proj1 (proj2 (proj2 comparison_failure_handled))
                    previous current (mkDisk None DumpFails) TypeError Hne Htry))
             H3 Hdump).
Defined.

(** C4 as written fails when the handler's save fails: the first entry of
    the previous state has no length, so the comparison raises on a
    fetched snapshot of 3 rows; the disk refuses the write, and
    [detect_changes] raises [APIError] instead of returning the empty
    list, with nothing persisted. *)
Lemma failed_save_leaves_detect :
  let previous := [NotSized; Cells []; Cells []] in
  let current := [["2024-01-02"; "120"; "15"]; [""; "TYPE"; "WINGS"]; []] in
  let d := mkDisk None OpenFails in
  detect_changes_try_stored previous current = Raise TypeError
  /\ 3 <= length current
  /\ fst (detect_changes_stored (Some previous) current d) = Raise APIError
  /\ fst (detect_changes_stored (Some previous) current d) <> Ok []
  /\ load_previous_state (snd (detect_changes_stored (Some previous) current d))
     <> Some current.
Proof.
  cbv zeta. repeat split.
  - simpl. lia.
  - vm_compute. discriminate.
  - vm_compute. discriminate.
Qed.
